(** * csv_to_sql.py: CSV rows to SQL INSERT statements

    A shallow embedding of [src/csv_to_sql.py] and the properties of its
    specification.

    - Python [str] is [string] (the UTF-8 bytes of the text; the only
      character the program inspects is the ASCII quote, so bytes and code
      points agree on everything it does).
    - Python [int] is [Z] (the owner id) or [nat] (the row counter).
    - A row of [csv.DictReader] is a [gmap string pyval]: the cells are
      strings, and a short row carries [None] for the columns it lacks.
    - [print], [sys.exit] and exceptions are a small writer/error monad [io].
    - An input file is the list of records [csv.reader] yields for it, the
      header first.  [csv_to_sql] and [main] take files that are read to
      their end; [csv_to_sql_reading] and [main_reading] add the files whose
      reading raises, and agree with them on the others.
    - The text files the program writes are a [gmap string string]. *)

From Stdlib Require Import ZArith DecimalString Ascii String.
From stdpp Require Import gmap strings list.

Local Open Scope string_scope.

(** ** Python values *)

(** The values a [DictReader] row holds under a column name. *)
Inductive pyval : Type :=
  | PyNone
  | PyStr (s : string).

#[global] Instance pyval_eq_dec : EqDecision pyval.
Proof. solve_decision. Defined.

(** [format(v)] as an f-string placeholder [{v}] renders it. *)
Definition py_format (v : pyval) : string :=
  match v with
  | PyNone => "None"
  | PyStr s => s
  end.

(** Decimal rendering of an [int] in an f-string. *)
Definition str_of_int (z : Z) : string :=
  NilZero.string_of_int (Z.to_int z).

Definition str_of_nat (n : nat) : string :=
  NilZero.string_of_uint (Nat.to_uint n).

(** The line feed, and [sep.join(l)]. *)
Definition nl : string := String (ascii_of_nat 10) "".

Definition join (sep : string) (l : list string) : string :=
  String.concat sep l.

(** [value.replace("'", "''")]. *)
Fixpoint replace_quote (s : string) : string :=
  match s with
  | "" => ""
  | String c rest =>
      if Ascii.eqb c "'"
      then String "'" (String "'" (replace_quote rest))
      else String c (replace_quote rest)
  end.

(** [x in l] for a list [l] of strings: [None] equals no string. *)
Definition py_in (v : pyval) (l : list string) : bool :=
  match v with
  | PyNone => false
  | PyStr s => bool_decide (s ∈ l)
  end.

(** ** Output, exit and exceptions *)

Inductive exc : Type :=
  | SystemExit (code : Z)
  | KeyError (key : string)
  | TypeError (msg : string)
  | OtherException (msg : string).

(** [except Exception] catches everything but [SystemExit]. *)
Definition is_Exception (e : exc) : bool :=
  match e with
  | SystemExit _ => false
  | KeyError _ | TypeError _ | OtherException _ => true
  end.

(** [str(e)]; a [KeyError] shows the repr of its key. *)
Definition str_exc (e : exc) : string :=
  match e with
  | SystemExit code => str_of_int code
  | KeyError key => "'" +:+ key +:+ "'"
  | TypeError msg => msg
  | OtherException msg => msg
  end.

(** A computation prints lines to standard output, then returns or raises. *)
Definition io (A : Type) : Type := (list string * (exc + A))%type.

Definition io_ret {A} (a : A) : io A := ([], inr a).

Definition io_bind {A B} (m : io A) (k : A → io B) : io B :=
  match m with
  | (out, inl e) => (out, inl e)
  | (out, inr a) => let '(out', r) := k a in ((out ++ out')%list, r)
  end.

Definition print (line : string) : io unit := ([line], inr tt).

Definition raise {A} (e : exc) : io A := ([], inl e).

Definition try_except {A} (m : io A) (handler : exc → io A) : io A :=
  match m with
  | (out, inl e) =>
      if is_Exception e
      then let '(out', r) := handler e in ((out ++ out')%list, r)
      else m
  | _ => m
  end.

#[global] Instance io_mret : MRet io := @io_ret.
#[global] Instance io_mbind : MBind io := λ A B k m, io_bind m k.

(** ** csv.DictReader *)

(** The dictionary [DictReader.__next__] builds from the header and one
    record: [dict(zip(fieldnames, row))], then [restval = None] for the
    columns a short row lacks.  (Surplus cells go under the key [None], which
    is no string and which the program never reads.) *)
Definition DictReader_row (fieldnames row : list string) : gmap string pyval :=
  let d := foldl (λ d kv, <[kv.1 := PyStr kv.2]> d) ∅ (zip fieldnames row) in
  foldl (λ d key, <[key := PyNone]> d) d (drop (length row) fieldnames).

(** [reader.fieldnames]: the first record, [None] for a file without one. *)
Definition fieldnames_of (records : list (list string)) : option (list string) :=
  head records.

Definition nonblank (row : list string) : bool :=
  match row with
  | [] => false
  | _ :: _ => true
  end.

(** The rows the [for] loop receives: blank records are skipped. *)
Definition DictReader_rows (records : list (list string))
  : list (gmap string pyval) :=
  match records with
  | [] => []
  | fieldnames :: rest => DictReader_row fieldnames <$> filter nonblank rest
  end.

(** [row[key]] and [row.get(key, dflt)]. *)
Definition getitem (row : gmap string pyval) (key : string) : io pyval :=
  match row !! key with
  | Some v => mret v
  | None => raise (KeyError key)
  end.

Definition get (row : gmap string pyval) (key dflt : string) : pyval :=
  default (PyStr dflt) (row !! key).

(** ** The row transformer *)

(** The nested helper [escape]: a falsy value ([None] or the empty string)
    gives the empty string, any other string has its quotes doubled. *)
Definition escape (value : pyval) : string :=
  match value with
  | PyNone | PyStr "" => ""
  | PyStr s => replace_quote s
  end.

Definition required_fields : list string := ["name"; "source"; "stage"].

Definition valid_stages : list string :=
  ["new_lead"; "initial_contact"; "nurturing"; "high_intent";
   "joined_group"; "opened_account"; "deposited"].

Definition valid_temps : list string := ["hot"; "warm"; "neutral"; "cold"].

(** A row with an entry for each required field. *)
Definition has_required (row : gmap string pyval) : Prop :=
  ∀ key, key ∈ required_fields → is_Some (row !! key).

(** The local variables of the loop body that the statement is built from. *)
Record locals : Type := Locals {
  name : string;
  phone : string;
  wechat : string;
  email : string;
  source : string;
  stage : pyval;
  temp_score : pyval;
  temp_level : pyval;
  interests : string;
  personality : string;
  unique_qualities : string;
  behavior_patterns : string;
  investment_profile : string
}.

Definition stage_warning (count : nat) (stage : pyval) : string :=
  "⚠️  警告：第 " +:+ str_of_nat count +:+ " 行的 stage 值 '" +:+ py_format stage
  +:+ "' 无效，使用默认值 'new_lead'".

Definition temp_level_warning (count : nat) (temp_level : pyval) : string :=
  "⚠️  警告：第 " +:+ str_of_nat count +:+ " 行的 temperature_level 值 '"
  +:+ py_format temp_level +:+ "' 无效，使用默认值 'neutral'".

(** Lines 48 to 73: the fields of one row, defaulted, escaped and validated.
    [count] is the 1-based number of the row. *)
Definition row_locals (count : nat) (row : gmap string pyval) : io locals :=
  v_name ← getitem row "name";
  let name := escape v_name in
  let phone := escape (get row "phone" "") in
  let wechat := escape (get row "wechat" "") in
  let email := escape (get row "email" "") in
  v_source ← getitem row "source";
  let source := escape v_source in
  stage ← getitem row "stage";
  let temp_score := get row "temperature_score" "50" in
  let temp_level := get row "temperature_level" "neutral" in
  let interests := escape (get row "interests" "") in
  let personality := escape (get row "personality" "") in
  let unique_qualities := escape (get row "unique_qualities" "") in
  let behavior_patterns := escape (get row "behavior_patterns" "") in
  let investment_profile := escape (get row "investment_profile" "") in
  stage ← (if negb (py_in stage valid_stages)
           then print (stage_warning count stage);; mret (PyStr "new_lead")
           else mret stage);
  temp_level ← (if negb (py_in temp_level valid_temps)
                then print (temp_level_warning count temp_level);;
                     mret (PyStr "neutral")
                else mret temp_level);
  mret (Locals name phone wechat email source stage temp_score temp_level
          interests personality unique_qualities behavior_patterns
          investment_profile).

(** Lines 75 to 83: the f-string of the statement. *)
Definition format_insert (user_id : Z) (l : locals) : string :=
  "INSERT INTO clients (" +:+ nl +:+
  "  user_id, name, phone, wechat, email, source, stage," +:+ nl +:+
  "  temperature_score, temperature_level," +:+ nl +:+
  "  interests, personality, unique_qualities, behavior_patterns, investment_profile"
  +:+ nl +:+
  ") VALUES (" +:+ nl +:+
  "  " +:+ str_of_int user_id +:+ ", '" +:+ name l +:+ "', '" +:+ phone l
  +:+ "', '" +:+ wechat l +:+ "', '" +:+ email l +:+ "', '" +:+ source l
  +:+ "', '" +:+ py_format (stage l) +:+ "'," +:+ nl +:+
  "  " +:+ py_format (temp_score l) +:+ ", '" +:+ py_format (temp_level l)
  +:+ "'," +:+ nl +:+
  "  '" +:+ interests l +:+ "', '" +:+ personality l +:+ "', '"
  +:+ unique_qualities l +:+ "', '" +:+ behavior_patterns l +:+ "', '"
  +:+ investment_profile l +:+ "'" +:+ nl +:+
  ");".

(** The [for row in reader] loop, with its two accumulators. *)
Fixpoint for_rows (user_id : Z) (rows : list (gmap string pyval))
    (sql_statements : list string) (count : nat) : io (list string * nat) :=
  match rows with
  | [] => mret (sql_statements, count)
  | row :: rest =>
      let count := S count in
      l ← row_locals count row;
      let sql := format_insert user_id l in
      for_rows user_id rest (sql_statements ++ [sql])%list count
  end.

(** What the [in] test raises on [reader.fieldnames] of a file without a
    header record. *)
Definition none_not_iterable : string :=
  "argument of type 'NoneType' is not iterable".

(** [csv_to_sql(csv_file, user_id)].  [fs] gives, for each path that exists,
    the records [csv.reader] yields for the file. *)
Definition csv_to_sql (fs : gmap string (list (list string)))
    (csv_file : string) (user_id : Z) : io (string * nat) :=
  match fs !! csv_file with
  | None =>
      print ("❌ 错误：文件 " +:+ csv_file +:+ " 不存在");;
      raise (SystemExit 1)
  | Some records =>
      try_except
        (match fieldnames_of records with
         | None => raise (TypeError none_not_iterable)
         | Some fieldnames =>
             if negb (forallb (λ field, bool_decide (field ∈ fieldnames))
                        required_fields)
             then
               print "❌ 错误：CSV 文件缺少必需字段";;
               print ("必需字段: " +:+ join ", " required_fields);;
               print ("当前字段: " +:+ join ", " fieldnames);;
               raise (SystemExit 1)
             else
               '(sql_statements, count) ←
                 for_rows user_id (DictReader_rows records) [] 0;
               mret (join (nl +:+ nl) sql_statements, count)
         end)
        (λ e,
           print "❌ 错误：处理 CSV 文件时出错";;
           print ("详细信息：" +:+ str_exc e);;
           raise (SystemExit 1))
  end.

(** ** The command-line program *)

(** [s * n]. *)
Fixpoint str_mul (s : string) (n : nat) : string :=
  match n with
  | O => ""
  | S n' => s +:+ str_mul s n'
  end.

(** The double quote, for the one hint that contains it. *)
Definition dq : string := String (ascii_of_nat 34) "".

(** One run of the program: the lines printed, the exit status of the
    process, and the text files on disk when it ends. *)
Record run : Type := Run {
  stdout : list string;
  exit_status : Z;
  disk_after : gmap string string
}.

Definition banner : list string :=
  [str_mul "=" 60; "  CRM 客户数据导入工具"; str_mul "=" 60; ""].

Definition usage : list string :=
  ["用法: python csv_to_sql.py <csv文件> [user_id]";
   "";
   "参数说明:";
   "  csv文件   - 客户数据 CSV 文件路径";
   "  user_id   - 归属用户 ID（默认: 2）";
   "";
   "示例:";
   "  python csv_to_sql.py my-clients.csv";
   "  python csv_to_sql.py my-clients.csv 3"].

Definition output_file : string := "import.sql".

Definition summary (count : nat) : list string :=
  ["✅ 转换完成!";
   "";
   "📊 统计信息:";
   "  - 总记录数: " +:+ str_of_nat count;
   "  - 输出文件: " +:+ output_file;
   "";
   "📝 下一步操作:";
   "";
   "  导入到本地数据库:";
   "    npx wrangler d1 execute webapp-production --local --file=./"
     +:+ output_file;
   "";
   "  导入到生产数据库:";
   "    npx wrangler d1 execute crm-high-trust-sales-db --remote --file=./"
     +:+ output_file;
   "";
   "  验证导入结果:";
   "    npx wrangler d1 execute crm-high-trust-sales-db --remote \";
   "      --command=" +:+ dq +:+ "SELECT COUNT(*) FROM clients" +:+ dq;
   "";
   str_mul "=" 60].

(** The exit status a raised exception ends the process with: the code of a
    [SystemExit], 1 for an exception nobody caught. *)
Definition status_of (e : exc) : Z :=
  match e with
  | SystemExit code => code
  | KeyError _ | TypeError _ | OtherException _ => 1
  end.

Section Main.

(** [int(s)] on a command-line argument; [None] when it raises
    [ValueError]. *)
Variable py_int : string → option Z.

(** [datetime.now().strftime('%Y-%m-%d %H:%M:%S')] at the time of the run. *)
Variable now : string.

(** The text written to the output file, in the order of the [f.write]
    calls. *)
Definition file_text (csv_file : string) (user_id : Z) (sql_output : string)
    (count : nat) : string :=
  "-- CRM 客户数据导入脚本" +:+ nl +:+
  "-- 来源文件: " +:+ csv_file +:+ nl +:+
  "-- 用户 ID: " +:+ str_of_int user_id +:+ nl +:+
  "-- 记录数量: " +:+ str_of_nat count +:+ nl +:+
  "-- 生成时间: " +:+ now +:+ nl +:+ nl +:+
  sql_output.

(** [int(sys.argv[2]) if len(sys.argv) > 2 else 2], from the arguments
    after the file name. *)
Definition owner_id (rest : list string) : option Z :=
  match rest with
  | [] => Some 2%Z
  | arg :: _ => py_int arg
  end.

(** [main()], from the argument vector [argv] (the script name first), the
    input files [fs] and the text files [disk] present before the run.  An
    argument that is no integer ends the run with an uncaught [ValueError]
    (status 1, the traceback goes to standard error). *)
Definition main (fs : gmap string (list (list string)))
    (disk : gmap string string) (argv : list string) : run :=
  match argv with
  | [] | [_] => Run (banner ++ usage)%list 1 disk
  | _ :: csv_file :: rest =>
      match owner_id rest with
      | None => Run banner 1 disk
      | Some user_id =>
          let started :=
            (banner ++
             ["📂 输入文件: " +:+ csv_file;
              "👤 用户 ID: " +:+ str_of_int user_id;
              "";
              "🔄 正在转换 CSV 数据..."])%list in
          match csv_to_sql fs csv_file user_id with
          | (out, inl e) => Run (started ++ out)%list (status_of e) disk
          | (out, inr (sql_output, count)) =>
              Run (started ++ out ++ summary count)%list 0
                (<[output_file := file_text csv_file user_id sql_output count]>
                   disk)
          end
      end
  end.

End Main.

(** ** Files that fail while they are read *)

(** What reading a file gives: the records [csv.reader] yields, then either
    the end of the file or an exception (a path [open] refuses, bytes that
    are no UTF-8, a field over the limit of the csv module), given by its
    text [str(e)].  [OtherException] stands for any such exception. *)
Record reading : Type := Reading {
  yielded : list (list string);
  failure : option string
}.

(** A file that is read to its end. *)
Definition complete (records : list (list string)) : reading :=
  Reading records None.

(** [csv_to_sql] on such files: the exception comes when the records are
    used up, at the header for a file that yields none, after the loop has
    run on the rows before it otherwise. *)
Definition csv_to_sql_reading (files : gmap string reading)
    (csv_file : string) (user_id : Z) : io (string * nat) :=
  match files !! csv_file with
  | None =>
      print ("❌ 错误：文件 " +:+ csv_file +:+ " 不存在");;
      raise (SystemExit 1)
  | Some r =>
      try_except
        (match yielded r with
         | [] =>
             match failure r with
             | Some msg => raise (OtherException msg)
             | None => raise (TypeError none_not_iterable)
             end
         | fieldnames :: _ =>
             if negb (forallb (λ field, bool_decide (field ∈ fieldnames))
                        required_fields)
             then
               print "❌ 错误：CSV 文件缺少必需字段";;
               print ("必需字段: " +:+ join ", " required_fields);;
               print ("当前字段: " +:+ join ", " fieldnames);;
               raise (SystemExit 1)
             else
               '(sql_statements, count) ←
                 for_rows user_id (DictReader_rows (yielded r)) [] 0;
               match failure r with
               | Some msg => raise (OtherException msg)
               | None => mret (join (nl +:+ nl) sql_statements, count)
               end
         end)
        (λ e,
           print "❌ 错误：处理 CSV 文件时出错";;
           print ("详细信息：" +:+ str_exc e);;
           raise (SystemExit 1))
  end.

Section MainReading.

Variable py_int : string → option Z.
Variable now : string.

(** [main()] on such files. *)
Definition main_reading (files : gmap string reading)
    (disk : gmap string string) (argv : list string) : run :=
  match argv with
  | [] | [_] => Run (banner ++ usage)%list 1 disk
  | _ :: csv_file :: rest =>
      match owner_id py_int rest with
      | None => Run banner 1 disk
      | Some user_id =>
          let started :=
            (banner ++
             ["📂 输入文件: " +:+ csv_file;
              "👤 用户 ID: " +:+ str_of_int user_id;
              "";
              "🔄 正在转换 CSV 数据..."])%list in
          match csv_to_sql_reading files csv_file user_id with
          | (out, inl e) => Run (started ++ out)%list (status_of e) disk
          | (out, inr (sql_output, count)) =>
              Run (started ++ out ++ summary count)%list 0
                (<[output_file :=
                     file_text now csv_file user_id sql_output count]> disk)
          end
      end
  end.

End MainReading.

(** ** Reading a statement back: a lexer for SQL INSERT statements

    The predicate of the specification: a statement is syntactically valid
    when it splits into the tokens of
    [INSERT INTO clients ( columns ) VALUES ( values );], where a value is an
    integer literal or a string literal in which a quote is written twice. *)

Inductive token : Type :=
  | TWord (w : string)
  | TNum (lit : string)
  | TStr (text : string)
  | TLParen
  | TRParen
  | TComma
  | TSemi.

#[global] Instance token_eq_dec : EqDecision token.
Proof. solve_decision. Defined.

Definition is_digit (c : ascii) : bool :=
  (48 <=? N_of_ascii c)%N && (N_of_ascii c <=? 57)%N.

Definition is_letter (c : ascii) : bool :=
  ((65 <=? N_of_ascii c)%N && (N_of_ascii c <=? 90)%N)
  || ((97 <=? N_of_ascii c)%N && (N_of_ascii c <=? 122)%N)
  || Ascii.eqb c "_".

Definition is_blank (c : ascii) : bool :=
  Ascii.eqb c " " || (N_of_ascii c =? 10)%N || (N_of_ascii c =? 9)%N
  || (N_of_ascii c =? 13)%N.

Inductive lex_state : Type :=
  | LStart
  | LWord (acc : string)
  | LSign
  | LNum (acc : string)
  | LStr (acc : string)
  | LQuote (acc : string).

Definition snoc (acc : string) (c : ascii) : string := acc +:+ String c "".

(** A character that starts a token, or stands between tokens. *)
Definition lex_start (c : ascii) : option (lex_state * list token) :=
  if is_digit c then Some (LNum (String c ""), [])
  else if is_letter c then Some (LWord (String c ""), [])
  else if is_blank c then Some (LStart, [])
  else if Ascii.eqb c "'" then Some (LStr "", [])
  else if Ascii.eqb c "-" then Some (LSign, [])
  else if Ascii.eqb c "(" then Some (LStart, [TLParen])
  else if Ascii.eqb c ")" then Some (LStart, [TRParen])
  else if Ascii.eqb c "," then Some (LStart, [TComma])
  else if Ascii.eqb c ";" then Some (LStart, [TSemi])
  else None.

(** After token [t] is complete, the character [c] that ended it. *)
Definition lex_emit (t : token) (c : ascii) : option (lex_state * list token) :=
  match lex_start c with
  | Some (st, ts) => Some (st, t :: ts)
  | None => None
  end.

Definition lex_step (st : lex_state) (c : ascii)
  : option (lex_state * list token) :=
  match st with
  | LStart => lex_start c
  | LWord acc =>
      if is_letter c || is_digit c then Some (LWord (snoc acc c), [])
      else lex_emit (TWord acc) c
  | LSign => if is_digit c then Some (LNum (String "-" (String c "")), []) else None
  | LNum acc =>
      if is_digit c then Some (LNum (snoc acc c), [])
      else if is_letter c then None
      else lex_emit (TNum acc) c
  | LStr acc =>
      if Ascii.eqb c "'" then Some (LQuote acc, [])
      else Some (LStr (snoc acc c), [])
  | LQuote acc =>
      if Ascii.eqb c "'" then Some (LStr (snoc acc c), [])
      else lex_emit (TStr acc) c
  end.

Fixpoint lex_run (st : lex_state) (s : string)
  : option (lex_state * list token) :=
  match s with
  | "" => Some (st, [])
  | String c rest =>
      match lex_step st c with
      | None => None
      | Some (st', ts) =>
          match lex_run st' rest with
          | None => None
          | Some (st'', ts') => Some (st'', (ts ++ ts')%list)
          end
      end
  end.

(** The token that is complete when the input ends. *)
Definition lex_end (st : lex_state) : option (list token) :=
  match st with
  | LStart => Some []
  | LWord acc => Some [TWord acc]
  | LNum acc => Some [TNum acc]
  | LQuote acc => Some [TStr acc]
  | LSign | LStr _ => None
  end.

Definition lex (s : string) : option (list token) :=
  match lex_run LStart s with
  | None => None
  | Some (st, ts) =>
      match lex_end st with
      | None => None
      | Some ts' => Some (ts ++ ts')%list
      end
  end.

Inductive sql_value : Type :=
  | SqlNum (lit : string)
  | SqlStr (text : string).

Definition value_of (t : token) : option sql_value :=
  match t with
  | TNum lit => Some (SqlNum lit)
  | TStr text => Some (SqlStr text)
  | _ => None
  end.

(** [v, v, ..., v );] *)
Fixpoint parse_values (ts : list token) : option (list sql_value) :=
  match ts with
  | [t; TRParen; TSemi] =>
      match value_of t with
      | Some v => Some [v]
      | None => None
      end
  | t :: TComma :: rest =>
      match value_of t, parse_values rest with
      | Some v, Some vs => Some (v :: vs)
      | _, _ => None
      end
  | _ => None
  end.

Definition insert_columns : list string :=
  ["user_id"; "name"; "phone"; "wechat"; "email"; "source"; "stage";
   "temperature_score"; "temperature_level";
   "interests"; "personality"; "unique_qualities"; "behavior_patterns";
   "investment_profile"].

(** The tokens of [INSERT INTO clients ( columns ) VALUES (]. *)
Definition insert_head : list token :=
  ([TWord "INSERT"; TWord "INTO"; TWord "clients"; TLParen] ++
   tail (concat ((λ c, [TComma; TWord c]) <$> insert_columns)) ++
   [TRParen; TWord "VALUES"; TLParen])%list.

Fixpoint strip_prefix (p ts : list token) : option (list token) :=
  match p, ts with
  | [], _ => Some ts
  | x :: p', t :: ts' => if decide (x = t) then strip_prefix p' ts' else None
  | _ :: _, [] => None
  end.

(** The values of a statement that is a valid INSERT into the fourteen
    columns; [None] for any other text. *)
Definition parse_insert (s : string) : option (list sql_value) :=
  match lex s with
  | None => None
  | Some ts =>
      match strip_prefix insert_head ts with
      | None => None
      | Some body =>
          match parse_values body with
          | Some vs => if decide (length vs = length insert_columns) then Some vs else None
          | None => None
          end
      end
  end.

(** Integer literals: an optional minus sign and at least one digit. *)
Fixpoint all_digits (s : string) : bool :=
  match s with
  | "" => true
  | String c rest => is_digit c && all_digits rest
  end.

Definition digits (s : string) : bool :=
  match s with
  | "" => false
  | String _ _ => all_digits s
  end.

Definition is_int_literal (s : string) : bool :=
  match s with
  | "" => false
  | String c rest => if Ascii.eqb c "-" then digits rest else digits s
  end.

(** The text of the cell of a row under a column: empty for a column the row
    has no entry for and for the [None] of a short row. *)
Definition cell_text (row : gmap string pyval) (key : string) : string :=
  match row !! key with
  | Some (PyStr s) => s
  | Some PyNone | None => ""
  end.

(** ** Sample inputs *)

Definition sample_fieldnames : list string :=
  ["name"; "source"; "stage"; "temperature_score"; "temperature_level"].

Definition sample_body : list (list string) :=
  [["O'Brien"; "referral"; "new_lead"; "80"; "hot"];
   ["Li"; "web"; "vip"; ""; "lukewarm"];
   ["Kim"; "ad"; ""; "x"; ""]].

Definition sample_fs : gmap string (list (list string)) :=
  {[ "clients.csv" := sample_fieldnames :: sample_body ]}.

(** The scenario of the specification: only the required columns. *)
Definition scenario_fieldnames : list string := ["name"; "source"; "stage"].

Definition scenario_body : list (list string) :=
  [["O'Brien"; "referral"; "new_lead"]].

Definition scenario_fs : gmap string (list (list string)) :=
  {[ "clients.csv" := scenario_fieldnames :: scenario_body ]}.

(** ** What a run prints, row by row *)

(** The warnings of one row, in the order the loop body prints them: the
    stage first, then the temperature level. *)
Definition row_warnings (count : nat) (row : gmap string pyval) : list string :=
  (match row !! "stage" with
   | Some v => if py_in v valid_stages then [] else [stage_warning count v]
   | None => []
   end ++
   if py_in (get row "temperature_level" "neutral") valid_temps then []
   else [temp_level_warning count (get row "temperature_level" "neutral")])%list.

(** The warnings of the rows after the first [count] ones. *)
Fixpoint all_warnings (count : nat) (rows : list (gmap string pyval))
  : list string :=
  match rows with
  | [] => []
  | row :: rest =>
      (row_warnings (S count) row ++ all_warnings (S count) rest)%list
  end.

(** The thirteen keys the loop body reads from a row. *)
Definition recognized_fields : list string :=
  ["name"; "phone"; "wechat"; "email"; "source"; "stage";
   "temperature_score"; "temperature_level";
   "interests"; "personality"; "unique_qualities"; "behavior_patterns";
   "investment_profile"].

(** The text a value stands for: [None] stands for no text. *)
Definition text_of (v : pyval) : string :=
  match v with
  | PyNone => ""
  | PyStr s => s
  end.

(** A row whose stage and temperature level are values of their lists. *)
Definition row_valid (row : gmap string pyval) : bool :=
  match row !! "stage" with
  | Some v => py_in v valid_stages
  | None => false
  end
  && py_in (get row "temperature_level" "neutral") valid_temps.

(** Two rows with the same entries under the keys the loop body reads. *)
Definition same_recognized (row1 row2 : gmap string pyval) : Prop :=
  ∀ key, key ∈ recognized_fields → row1 !! key = row2 !! key.

(** The cell of a record under a column name: the cell at the position of
    the last column with that name. *)
Definition column_cell (fieldnames row : list string) (key cell : string)
  : Prop :=
  ∃ j, fieldnames !! j = Some key ∧ (key ∉ drop (S j) fieldnames) ∧
       row !! j = Some cell.

(** ** The statement as text: columns and value literals

    The shape the specification gives a statement: an INSERT into the
    fourteen columns whose value literals stand in the order of the columns,
    a text value between quotes, a number bare. *)

(** A text between the quotes of an SQL string literal. *)
Definition sql_quote (text : string) : string := "'" +:+ text +:+ "'".

(** Fourteen items on three lines: seven, two and five, joined by commas. *)
Definition three_lines (items : list string) : string :=
  "  " +:+ join ", " (take 7 items) +:+ "," +:+ nl +:+
  "  " +:+ join ", " (take 2 (drop 7 items)) +:+ "," +:+ nl +:+
  "  " +:+ join ", " (drop 9 items).

(** The statement whose value literals are [vs], in the order of the
    columns. *)
Definition insert_statement (vs : list string) : string :=
  "INSERT INTO clients (" +:+ nl +:+
  three_lines insert_columns +:+ nl +:+
  ") VALUES (" +:+ nl +:+
  three_lines vs +:+ nl +:+
  ");".

(** The value literal that stands under a column: the one at the position
    of the column in the column list. *)
Fixpoint column_value_in (columns vs : list string) (column : string)
  : option string :=
  match columns, vs with
  | c :: columns', v :: vs' =>
      if bool_decide (c = column) then Some v
      else column_value_in columns' vs' column
  | _, _ => None
  end.

Definition column_value (vs : list string) (column : string) : option string :=
  column_value_in insert_columns vs column.

(** The fourteen value literals of the statement built from the locals [l]:
    the owner id and the temperature score bare, every other value between
    quotes. *)
Definition sql_values (user_id : Z) (l : locals) : list string :=
  [str_of_int user_id;
   sql_quote (name l);
   sql_quote (phone l);
   sql_quote (wechat l);
   sql_quote (email l);
   sql_quote (source l);
   sql_quote (py_format (stage l));
   py_format (temp_score l);
   sql_quote (py_format (temp_level l));
   sql_quote (interests l);
   sql_quote (personality l);
   sql_quote (unique_qualities l);
   sql_quote (behavior_patterns l);
   sql_quote (investment_profile l)].

(** * Properties *)

(** ** The rows of the reader *)

Lemma foldl_insert_lookup_notin {A B} (f : A → string) (g : A → B)
    (xs : list A) (d : gmap string B) (key : string) :
  key ∉ f <$> xs →
  foldl (λ d x, <[f x := g x]> d) d xs !! key = d !! key.
Proof.
  revert d. induction xs as [|x xs IH]; intros d Hnot; [done|].
  cbn [foldl]. rewrite IH.
  - apply lookup_insert_ne. intros <-. apply Hnot. cbn. left.
  - intros Hin. apply Hnot. cbn. by right.
Qed.

Lemma foldl_insert_lookup_in {A B} (f : A → string) (g : A → B)
    (xs : list A) (d : gmap string B) (key : string) :
  key ∈ f <$> xs →
  is_Some (foldl (λ d x, <[f x := g x]> d) d xs !! key).
Proof.
  revert d. induction xs as [|x xs IH]; intros d Hin.
  - by apply elem_of_nil in Hin.
  - cbn [foldl]. destruct (decide (key ∈ f <$> xs)) as [Hxs|Hxs].
    + by apply IH.
    + rewrite foldl_insert_lookup_notin by done.
      cbn in Hin. apply elem_of_cons in Hin as [->|Hin]; [|done].
      rewrite lookup_insert_eq. by eexists.
Qed.

Lemma fst_zip_take {A B} (xs : list A) (ys : list B) :
  fst <$> zip xs ys = take (length ys) xs.
Proof.
  revert ys. induction xs as [|x xs IH]; intros [|y ys]; cbn; try done.
  by rewrite IH.
Qed.

(** A row has an entry for a key exactly when the header names the key. *)
Lemma DictReader_row_lookup_None (fieldnames row : list string) (key : string) :
  key ∉ fieldnames → DictReader_row fieldnames row !! key = None.
Proof.
  intros Hnot. unfold DictReader_row.
  rewrite (foldl_insert_lookup_notin id (λ _, PyNone)).
  - rewrite (foldl_insert_lookup_notin fst (λ kv, PyStr kv.2)); [done|].
    rewrite fst_zip_take. intros Hin. apply Hnot.
    by eapply subseteq_take.
  - rewrite list_fmap_id. intros Hin. apply Hnot.
    by eapply subseteq_drop.
Qed.

Lemma DictReader_row_lookup_Some (fieldnames row : list string) (key : string) :
  key ∈ fieldnames → is_Some (DictReader_row fieldnames row !! key).
Proof.
  intros Hin. unfold DictReader_row.
  destruct (decide (key ∈ drop (length row) fieldnames)) as [Hd|Hd].
  - apply (foldl_insert_lookup_in id (λ _, PyNone)). by rewrite list_fmap_id.
  - rewrite (foldl_insert_lookup_notin id (λ _, PyNone))
      by (by rewrite list_fmap_id).
    apply (foldl_insert_lookup_in fst (λ kv, PyStr kv.2)).
    rewrite fst_zip_take.
    rewrite <- (take_drop (length row) fieldnames) in Hin.
    apply elem_of_app in Hin as [?|?]; done.
Qed.

(** ** One row *)

(** With the three required keys present the body of the loop raises nothing,
    and its locals and warnings are these. *)
Lemma row_locals_eq (count : nat) (row : gmap string pyval) (vn vs vst : pyval) :
  row !! "name" = Some vn →
  row !! "source" = Some vs →
  row !! "stage" = Some vst →
  row_locals count row =
    (((if py_in vst valid_stages then [] else [stage_warning count vst]) ++
      (if py_in (get row "temperature_level" "neutral") valid_temps then []
       else [temp_level_warning count (get row "temperature_level" "neutral")]))%list,
     inr {| name := escape vn;
            phone := escape (get row "phone" "");
            wechat := escape (get row "wechat" "");
            email := escape (get row "email" "");
            source := escape vs;
            stage := if py_in vst valid_stages then vst else PyStr "new_lead";
            temp_score := get row "temperature_score" "50";
            temp_level :=
              if py_in (get row "temperature_level" "neutral") valid_temps
              then get row "temperature_level" "neutral"
              else PyStr "neutral";
            interests := escape (get row "interests" "");
            personality := escape (get row "personality" "");
            unique_qualities := escape (get row "unique_qualities" "");
            behavior_patterns := escape (get row "behavior_patterns" "");
            investment_profile := escape (get row "investment_profile" "") |}).
Proof.
  intros Hn Hs Hst. unfold row_locals, getitem. rewrite Hn, Hs, Hst.
  unfold mbind, mret, io_mbind, io_mret. cbn [io_bind io_ret].
  destruct (py_in vst valid_stages);
    destruct (py_in (get row "temperature_level" "neutral") valid_temps);
    reflexivity.
Qed.

Lemma has_required_lookups (row : gmap string pyval) :
  has_required row →
  ∃ vn vs vst,
    row !! "name" = Some vn ∧ row !! "source" = Some vs ∧
    row !! "stage" = Some vst.
Proof.
  intros H.
  destruct (H "name") as [vn Hn]; [set_solver|].
  destruct (H "source") as [vs Hs]; [set_solver|].
  destruct (H "stage") as [vst Hst]; [set_solver|].
  by exists vn, vs, vst.
Qed.

Lemma row_locals_total (count : nat) (row : gmap string pyval) :
  has_required row → ∃ w l, row_locals count row = (w, inr l).
Proof.
  intros (vn & vs & vst & Hn & Hs & Hst)%has_required_lookups.
  rewrite (row_locals_eq count row vn vs vst) by done. by eexists _, _.
Qed.

Lemma DictReader_row_has_required (fieldnames row : list string) :
  required_fields ⊆ fieldnames → has_required (DictReader_row fieldnames row).
Proof.
  intros Hsub key Hkey. apply DictReader_row_lookup_Some. by apply Hsub.
Qed.

(** ** The loop *)

Lemma for_rows_spec (user_id : Z) (rows : list (gmap string pyval)) :
  Forall has_required rows →
  ∀ (sql_statements : list string) (count : nat),
  ∃ (out : list string) (ls : list locals),
    for_rows user_id rows sql_statements count =
      (out, inr ((sql_statements ++ (format_insert user_id <$> ls))%list,
                 count + length rows)) ∧
    length ls = length rows ∧
    ∀ i row, rows !! i = Some row →
      ∃ w l, row_locals (S (count + i)) row = (w, inr l) ∧
             ls !! i = Some l ∧ w ⊆ out.
Proof.
  induction 1 as [|row rows Hrow _ IH]; intros stmts count.
  - exists [], []. cbn. rewrite app_nil_r, Nat.add_0_r.
    split; [done|]. split; [done|]. intros i row Hi. by destruct i.
  - destruct (row_locals_total (S count) row Hrow) as (w & l & Hl).
    destruct (IH (stmts ++ [format_insert user_id l])%list (S count))
      as (out & ls & Hrun & Hlen & Hrows).
    exists (w ++ out)%list, (l :: ls). cbn [for_rows].
    unfold mbind, io_mbind, io_bind. rewrite Hl, Hrun.
    split; [|split].
    + cbn. rewrite <- app_assoc. cbn. do 3 f_equal. lia.
    + cbn. by rewrite Hlen.
    + intros [|i] row' Hi; cbn in Hi.
      * injection Hi as <-. exists w, l. rewrite Nat.add_0_r.
        split; [done|]. split; [done|]. set_solver.
      * destruct (Hrows i row' Hi) as (w' & l' & Hl' & Hls & Hsub).
        exists w', l'. replace (count + S i) with (S count + i) by lia.
        split; [done|]. split; [done|]. set_solver.
Qed.

(** ** The whole transformation *)

Lemma required_check (fieldnames : list string) :
  forallb (λ field, bool_decide (field ∈ fieldnames)) required_fields = true
  ↔ required_fields ⊆ fieldnames.
Proof.
  rewrite forallb_forall. split.
  - intros H key Hkey. apply list_elem_of_In, H in Hkey.
    by apply bool_decide_eq_true in Hkey.
  - intros H key Hkey. apply bool_decide_eq_true, H. by apply list_elem_of_In.
Qed.

(** On a file whose header has the required fields, [csv_to_sql] returns: one
    statement per row of the reader, each built from the locals of its row. *)
Lemma csv_to_sql_spec (fs : gmap string (list (list string)))
    (csv_file : string) (user_id : Z) (fieldnames : list string)
    (body : list (list string)) :
  fs !! csv_file = Some (fieldnames :: body) →
  required_fields ⊆ fieldnames →
  ∃ (out : list string) (ls : list locals),
    csv_to_sql fs csv_file user_id =
      (out, inr (join (nl +:+ nl) (format_insert user_id <$> ls), length ls)) ∧
    length ls = length (DictReader_rows (fieldnames :: body)) ∧
    ∀ i row, DictReader_rows (fieldnames :: body) !! i = Some row →
      has_required row ∧
      ∃ w l, row_locals (S i) row = (w, inr l) ∧ ls !! i = Some l ∧ w ⊆ out.
Proof.
  intros Hfile Hreq.
  assert (Hall : Forall has_required (DictReader_rows (fieldnames :: body))).
  { cbn. apply Forall_fmap, Forall_forall. intros rec _.
    by apply DictReader_row_has_required. }
  destruct (for_rows_spec user_id _ Hall [] 0) as (out & ls & Hrun & Hlen & Hrows).
  exists out, ls. split; [|split].
  - unfold csv_to_sql. rewrite Hfile. cbn [fieldnames_of head].
    apply required_check in Hreq. rewrite Hreq. cbn [negb].
    unfold mbind, io_mbind, io_bind. rewrite Hrun. cbn.
    rewrite app_nil_r. by rewrite Hlen.
  - done.
  - intros i row Hi. split.
    + by eapply Forall_lookup_1.
    + by apply Hrows.
Qed.

(** From the facts [csv_to_sql_spec] gives about row [i], the explicit locals
    and warnings of that row. *)
Ltac row_facts Hspec i row Hi :=
  let w := fresh "w" in
  let l := fresh "l" in
  let Hl := fresh "Hl" in
  let Hls := fresh "Hls" in
  let Hsub := fresh "Hsub" in
  let Hreq := fresh "Hreq" in
  let vn := fresh "vn" in
  let vs := fresh "vs" in
  let vst := fresh "vst" in
  let Hn := fresh "Hn" in
  let Hs := fresh "Hs" in
  let Hst := fresh "Hst" in
  destruct (Hspec i row Hi) as (Hreq & w & l & Hl & Hls & Hsub);
  destruct (has_required_lookups row Hreq) as (vn & vs & vst & Hn & Hs & Hst);
  rewrite (row_locals_eq (S i) row vn vs vst Hn Hs Hst) in Hl;
  injection Hl as <- <-.


(** Appending strings. *)
Lemma str_app_cons (c : ascii) (s1 s2 : string) :
  String c s1 +:+ s2 = String c (s1 +:+ s2).
Proof. reflexivity. Qed.

Lemma str_app_assoc (s1 s2 s3 : string) :
  (s1 +:+ s2) +:+ s3 = s1 +:+ s2 +:+ s3.
Proof.
  induction s1 as [|c s1 IH]; [done|]. rewrite !str_app_cons. by f_equal.
Qed.

Lemma snoc_app (acc : string) (c : ascii) (rest : string) :
  snoc acc c +:+ rest = acc +:+ String c rest.
Proof. unfold snoc. by rewrite str_app_assoc. Qed.

Lemma str_app_nil_r (s : string) : s +:+ "" = s.
Proof.
  induction s as [|c s IH]; [done|]. rewrite str_app_cons. by f_equal.
Qed.

(** The f-string of the program writes the statement of the specification:
    the fourteen value literals of the locals, in the order of the columns. *)
Lemma format_insert_text (user_id : Z) (l : locals) :
  format_insert user_id l = insert_statement (sql_values user_id l).
Proof.
  unfold format_insert, insert_statement, three_lines, sql_values, sql_quote,
    join.
  cbn [take drop firstn skipn String.concat insert_columns].
  rewrite !str_app_assoc. reflexivity.
Qed.


(** C4. When the header omits an optional column, every row has the
    empty-string literal [''] under that column of its statement, except that
    a missing [temperature_score] gives the bare number [50] and a missing
    [temperature_level] gives ['neutral']. *)
Theorem missing_optional_defaults
    (fs : gmap string (list (list string))) (csv_file : string) (user_id : Z)
    (fieldnames : list string) (body : list (list string))
    (i : nat) (row : gmap string pyval) :
  fs !! csv_file = Some (fieldnames :: body) →
  required_fields ⊆ fieldnames →
  DictReader_rows (fieldnames :: body) !! i = Some row →
  ∃ (out stmts : list string) (l : locals),
    csv_to_sql fs csv_file user_id =
      (out, inr (join (nl +:+ nl) stmts, length stmts)) ∧
    stmts !! i = Some (format_insert user_id l) ∧
    stmts !! i = Some (insert_statement (sql_values user_id l)) ∧
    ("phone" ∉ fieldnames →
       phone l = "" ∧
       column_value (sql_values user_id l) "phone" = Some "''") ∧
    ("wechat" ∉ fieldnames →
       wechat l = "" ∧
       column_value (sql_values user_id l) "wechat" = Some "''") ∧
    ("email" ∉ fieldnames →
       email l = "" ∧
       column_value (sql_values user_id l) "email" = Some "''") ∧
    ("interests" ∉ fieldnames →
       interests l = "" ∧
       column_value (sql_values user_id l) "interests" = Some "''") ∧
    ("personality" ∉ fieldnames →
       personality l = "" ∧
       column_value (sql_values user_id l) "personality" = Some "''") ∧
    ("unique_qualities" ∉ fieldnames →
       unique_qualities l = "" ∧
       column_value (sql_values user_id l) "unique_qualities" = Some "''") ∧
    ("behavior_patterns" ∉ fieldnames →
       behavior_patterns l = "" ∧
       column_value (sql_values user_id l) "behavior_patterns" = Some "''") ∧
    ("investment_profile" ∉ fieldnames →
       investment_profile l = "" ∧
       column_value (sql_values user_id l) "investment_profile" = Some "''") ∧
    ("temperature_score" ∉ fieldnames →
       py_format (temp_score l) = "50" ∧
       column_value (sql_values user_id l) "temperature_score" = Some "50") ∧
    ("temperature_level" ∉ fieldnames →
       py_format (temp_level l) = "neutral" ∧
       column_value (sql_values user_id l) "temperature_level"
         = Some "'neutral'").
Proof.
  intros Hfile Hreq Hi.
  destruct (csv_to_sql_spec fs csv_file user_id fieldnames body Hfile Hreq)
    as (out & ls & Hrun & Hlen & Hrows).
  row_facts Hrows i row Hi.
  assert (Hnone : ∀ key, key ∉ fieldnames → row !! key = None).
  { intros key Hkey. cbn in Hi. rewrite list_lookup_fmap in Hi.
    destruct (filter nonblank body !! i) as [rec|]; [|done].
    injection Hi as <-. by apply DictReader_row_lookup_None. }
  eexists out, (format_insert user_id <$> ls), _.
  rewrite length_fmap, list_lookup_fmap, Hls. cbn [fmap option_fmap option_map].
  split; [done|]. split; [done|].
  split; [by rewrite format_insert_text|].
  unfold column_value, sql_values.
  cbn [phone wechat email interests personality unique_qualities
       behavior_patterns investment_profile temp_score temp_level].
  unfold get.
  repeat split;
    match goal with
    | Hkey : _ ∉ fieldnames |- _ => rewrite (Hnone _ Hkey); reflexivity
    end.
Qed.

(** C5. Whatever string a row carries under [temperature_score] is the value
    literal under the temperature_score column of its statement, character
    for character and bare: no validation, no escaping, no coercion, no
    quotes. *)
Theorem temperature_score_verbatim
    (fs : gmap string (list (list string))) (csv_file : string) (user_id : Z)
    (fieldnames : list string) (body : list (list string))
    (i : nat) (row : gmap string pyval) (s : string) :
  fs !! csv_file = Some (fieldnames :: body) →
  required_fields ⊆ fieldnames →
  DictReader_rows (fieldnames :: body) !! i = Some row →
  row !! "temperature_score" = Some (PyStr s) →
  ∃ (out stmts : list string) (l : locals),
    csv_to_sql fs csv_file user_id =
      (out, inr (join (nl +:+ nl) stmts, length stmts)) ∧
    stmts !! i = Some (format_insert user_id l) ∧
    stmts !! i = Some (insert_statement (sql_values user_id l)) ∧
    column_value (sql_values user_id l) "temperature_score" = Some s ∧
    temp_score l = PyStr s ∧
    py_format (temp_score l) = s.
Proof.
  intros Hfile Hreq Hi Hscore.
  destruct (csv_to_sql_spec fs csv_file user_id fieldnames body Hfile Hreq)
    as (out & ls & Hrun & Hlen & Hrows).
  row_facts Hrows i row Hi.
  eexists out, (format_insert user_id <$> ls), _.
  rewrite length_fmap, list_lookup_fmap, Hls. cbn [fmap option_fmap option_map].
  split; [done|]. split; [done|].
  split; [by rewrite format_insert_text|].
  unfold column_value, sql_values. cbn [temp_score]. unfold get.
  by rewrite Hscore.
Qed.

(** What [py_in] means. *)
Lemma py_in_true (v : pyval) (valid : list string) :
  py_in v valid = true → ∃ s, v = PyStr s ∧ s ∈ valid.
Proof.
  destruct v as [|s]; cbn; [done|]. intros Hin%bool_decide_eq_true. by exists s.
Qed.

(** C8. In every generated statement the literal under the stage column is
    one of the seven stage values between quotes and the literal under the
    temperature_level column is one of the four level values between quotes,
    whatever the row; a cell that is present and empty is invalid like any
    other value outside the list, coerced to the default with its warning. *)
Theorem enum_positions_always_valid
    (fs : gmap string (list (list string))) (csv_file : string) (user_id : Z)
    (fieldnames : list string) (body : list (list string))
    (i : nat) (row : gmap string pyval) :
  fs !! csv_file = Some (fieldnames :: body) →
  required_fields ⊆ fieldnames →
  DictReader_rows (fieldnames :: body) !! i = Some row →
  ∃ (out stmts : list string) (l : locals),
    csv_to_sql fs csv_file user_id =
      (out, inr (join (nl +:+ nl) stmts, length stmts)) ∧
    stmts !! i = Some (format_insert user_id l) ∧
    stmts !! i = Some (insert_statement (sql_values user_id l)) ∧
    (∃ s, s ∈ valid_stages ∧
          column_value (sql_values user_id l) "stage" = Some (sql_quote s)) ∧
    (∃ s, s ∈ valid_temps ∧
          column_value (sql_values user_id l) "temperature_level"
            = Some (sql_quote s)) ∧
    py_format (stage l) ∈ valid_stages ∧
    py_format (temp_level l) ∈ valid_temps ∧
    (row !! "stage" = Some (PyStr "") →
       stage l = PyStr "new_lead" ∧
       column_value (sql_values user_id l) "stage" = Some "'new_lead'" ∧
       stage_warning (S i) (PyStr "") ∈ out) ∧
    (row !! "temperature_level" = Some (PyStr "") →
       temp_level l = PyStr "neutral" ∧
       column_value (sql_values user_id l) "temperature_level"
         = Some "'neutral'" ∧
       temp_level_warning (S i) (PyStr "") ∈ out).
Proof.
  intros Hfile Hreq Hi.
  destruct (csv_to_sql_spec fs csv_file user_id fieldnames body Hfile Hreq)
    as (out & ls & Hrun & Hlen & Hrows).
  row_facts Hrows i row Hi.
  eexists out, (format_insert user_id <$> ls), _.
  rewrite length_fmap, list_lookup_fmap, Hls. cbn [fmap option_fmap option_map].
  split; [done|]. split; [done|].
  split; [by rewrite format_insert_text|].
  unfold column_value, sql_values. cbn [stage temp_level].
  assert (Hstage : py_format (if py_in vst valid_stages then vst
                              else PyStr "new_lead") ∈ valid_stages).
  { destruct (py_in vst valid_stages) eqn:Hin.
    - apply py_in_true in Hin as (s & -> & Hs'). done.
    - by apply (bool_decide_unpack _). }
  assert (Hlevel : py_format
                     (if py_in (get row "temperature_level" "neutral") valid_temps
                      then get row "temperature_level" "neutral"
                      else PyStr "neutral") ∈ valid_temps).
  { destruct (py_in (get row "temperature_level" "neutral") valid_temps) eqn:Hin.
    - apply py_in_true in Hin as (s & -> & Hs'). done.
    - by apply (bool_decide_unpack _). }
  split; [by eexists|]. split; [by eexists|].
  split; [done|]. split; [done|]. split.
  - intros Hempty. rewrite Hst in Hempty. injection Hempty as ->.
    change (py_in (PyStr "") valid_stages) with false in Hsub |- *.
    split; [done|]. split; [done|].
    apply Hsub, elem_of_app. left. apply list_elem_of_here.
  - intros Hempty. unfold get in Hsub |- *. rewrite Hempty in Hsub |- *.
    cbn [from_option id] in Hsub |- *.
    change (py_in (PyStr "") valid_temps) with false in Hsub |- *.
    split; [done|]. split; [done|].
    apply Hsub, elem_of_app. right. apply list_elem_of_here.
Qed.

(** C9. When the header has a [temperature_score] column and the cell of a row
    is empty, the default is not applied: the value literal under the
    temperature_score column of the statement is the empty text, so the
    numeric position is blank, not [50]; the default is used exactly when the
    row has no entry for the column. *)
Theorem empty_temperature_score_not_defaulted
    (fs : gmap string (list (list string))) (csv_file : string) (user_id : Z)
    (fieldnames : list string) (body : list (list string))
    (i : nat) (row : gmap string pyval) :
  fs !! csv_file = Some (fieldnames :: body) →
  required_fields ⊆ fieldnames →
  DictReader_rows (fieldnames :: body) !! i = Some row →
  ∃ (out stmts : list string) (l : locals),
    csv_to_sql fs csv_file user_id =
      (out, inr (join (nl +:+ nl) stmts, length stmts)) ∧
    stmts !! i = Some (format_insert user_id l) ∧
    stmts !! i = Some (insert_statement (sql_values user_id l)) ∧
    (row !! "temperature_score" = Some (PyStr "") →
       "temperature_score" ∈ fieldnames ∧
       temp_score l = PyStr "" ∧
       py_format (temp_score l) = "" ∧
       column_value (sql_values user_id l) "temperature_score" = Some "") ∧
    (row !! "temperature_score" = None →
       py_format (temp_score l) = "50" ∧
       column_value (sql_values user_id l) "temperature_score" = Some "50").
Proof.
  intros Hfile Hreq Hi.
  destruct (csv_to_sql_spec fs csv_file user_id fieldnames body Hfile Hreq)
    as (out & ls & Hrun & Hlen & Hrows).
  row_facts Hrows i row Hi.
  eexists out, (format_insert user_id <$> ls), _.
  rewrite length_fmap, list_lookup_fmap, Hls. cbn [fmap option_fmap option_map].
  split; [done|]. split; [done|].
  split; [by rewrite format_insert_text|].
  unfold column_value, sql_values. cbn [temp_score]. unfold get. split.
  - intros Hempty. split; [|by rewrite Hempty].
    destruct (decide ("temperature_score" ∈ fieldnames)) as [|Hnot]; [done|].
    cbn in Hi. rewrite list_lookup_fmap in Hi.
    destruct (filter nonblank body !! i) as [rec|]; [|done].
    injection Hi as <-.
    by rewrite DictReader_row_lookup_None in Hempty.
  - intros Hnone. by rewrite Hnone.
Qed.

(** ** The program *)

(** C6. When the input path does not exist, or the header of the file lacks a
    required field, the run ends with exit status 1, the text files on disk
    are what they were (the output file is not written), and the diagnostic
    is the last thing printed. *)
Theorem main_fatal_writes_nothing (py_int : string → option Z) (now : string)
    (fs : gmap string (list (list string))) (disk : gmap string string)
    (prog csv_file : string) (rest : list string) :
  fs !! csv_file = None ∨
  (∃ fieldnames body,
     fs !! csv_file = Some (fieldnames :: body) ∧
     ¬ required_fields ⊆ fieldnames) →
  let r := main py_int now fs disk (prog :: csv_file :: rest) in
  exit_status r = 1%Z ∧
  disk_after r = disk ∧
  (is_Some (owner_id py_int rest) →
   (fs !! csv_file = None →
      ∃ before,
        stdout r = (before ++ ["❌ 错误：文件 " +:+ csv_file +:+ " 不存在"])%list) ∧
   (∀ fieldnames body, fs !! csv_file = Some (fieldnames :: body) →
      ∃ before,
        stdout r =
          (before ++
           ["❌ 错误：CSV 文件缺少必需字段";
            "必需字段: name, source, stage";
            "当前字段: " +:+ join ", " fieldnames])%list)).
Proof.
  intros Hfatal. unfold main.
  destruct (owner_id py_int rest) as [user_id|] eqn:Hid; cbn zeta.
  2: { split; [done|]. split; [done|]. by intros [? ?]. }
  destruct Hfatal as [Hnone|(fieldnames & body & Hfile & Hlack)].
  - assert (csv_to_sql fs csv_file user_id =
              (["❌ 错误：文件 " +:+ csv_file +:+ " 不存在"], inl (SystemExit 1)))
      as -> by (unfold csv_to_sql; by rewrite Hnone).
    cbn [stdout exit_status disk_after status_of].
    split; [done|]. split; [done|]. intros _. split.
    + intros _. by eexists.
    + intros ? ? ?. congruence.
  - assert (csv_to_sql fs csv_file user_id =
              (["❌ 错误：CSV 文件缺少必需字段";
                "必需字段: name, source, stage";
                "当前字段: " +:+ join ", " fieldnames], inl (SystemExit 1)))
      as ->.
    { unfold csv_to_sql. rewrite Hfile. cbn [fieldnames_of head].
      destruct (forallb _ required_fields) eqn:Hcheck; [|done].
      by apply required_check in Hcheck. }
    cbn [stdout exit_status disk_after status_of].
    split; [done|]. split; [done|]. intros _. split.
    + intros ?. congruence.
    + intros fieldnames' body' Hfile'. rewrite Hfile in Hfile'.
      injection Hfile' as <- <-. by eexists.
Qed.

(** C7. The header [name,source,stage], the one row
    [O'Brien,referral,new_lead] and owner id 3 give exactly this one
    statement, and no warning. *)
Theorem end_to_end_scenario (fs : gmap string (list (list string)))
    (csv_file : string) :
  fs !! csv_file =
    Some [["name"; "source"; "stage"]; ["O'Brien"; "referral"; "new_lead"]] →
  csv_to_sql fs csv_file 3 =
    ([],
     inr ("INSERT INTO clients (" +:+ nl +:+
          "  user_id, name, phone, wechat, email, source, stage," +:+ nl +:+
          "  temperature_score, temperature_level," +:+ nl +:+
          "  interests, personality, unique_qualities, behavior_patterns, investment_profile"
          +:+ nl +:+
          ") VALUES (" +:+ nl +:+
          "  3, 'O''Brien', '', '', '', 'referral', 'new_lead'," +:+ nl +:+
          "  50, 'neutral'," +:+ nl +:+
          "  '', '', '', '', ''" +:+ nl +:+
          ");",
          1)).
Proof.
  intros Hfile. unfold csv_to_sql. rewrite Hfile. vm_compute. reflexivity.
Qed.

(** C10. Two runs of [csv_to_sql] on the same parsed rows and the same owner
    id return the same text and the same count (and print the same), whatever
    the path, the other files and the header order; and in the program the
    time of the run changes neither what is printed nor the exit status: it
    only enters the text [main] writes. *)
Theorem csv_to_sql_deterministic
    (fs1 fs2 : gmap string (list (list string))) (file1 file2 : string)
    (user_id : Z) (fieldnames1 fieldnames2 : list string)
    (body1 body2 : list (list string)) :
  fs1 !! file1 = Some (fieldnames1 :: body1) →
  fs2 !! file2 = Some (fieldnames2 :: body2) →
  required_fields ⊆ fieldnames1 →
  required_fields ⊆ fieldnames2 →
  DictReader_rows (fieldnames1 :: body1) = DictReader_rows (fieldnames2 :: body2) →
  csv_to_sql fs1 file1 user_id = csv_to_sql fs2 file2 user_id ∧
  ∀ py_int now1 now2 disk argv,
    stdout (main py_int now1 fs1 disk argv) = stdout (main py_int now2 fs1 disk argv) ∧
    exit_status (main py_int now1 fs1 disk argv)
      = exit_status (main py_int now2 fs1 disk argv) ∧
    ∀ path, path ≠ output_file →
      disk_after (main py_int now1 fs1 disk argv) !! path
        = disk_after (main py_int now2 fs1 disk argv) !! path.
Proof.
  intros Hfile1 Hfile2 Hreq1%required_check Hreq2%required_check Hrows. split.
  - unfold csv_to_sql. rewrite Hfile1, Hfile2. cbn [fieldnames_of head].
    by rewrite Hreq1, Hreq2, Hrows.
  - intros py_int now1 now2 disk argv. unfold main.
    destruct argv as [|prog [|csv_file rest]]; [done..|].
    destruct (owner_id py_int rest) as [uid|]; [|done].
    destruct (csv_to_sql fs1 csv_file uid) as [out [e|[sql count]]]; [done|].
    cbn [stdout exit_status disk_after]. split; [done|]. split; [done|].
    intros path Hpath. by rewrite !lookup_insert_ne.
Qed.

(** ** Escaping and reading back *)

(** [escape] doubles the quotes of the text of the value. *)
Lemma escape_replace_quote (row : gmap string pyval) (key : string) :
  escape (get row key "") = replace_quote (cell_text row key).
Proof.
  unfold get, cell_text. destruct (row !! key) as [[|[|c s]]|]; reflexivity.
Qed.

Lemma escape_lookup (row : gmap string pyval) (key : string) (v : pyval) :
  row !! key = Some v → escape v = replace_quote (cell_text row key).
Proof.
  intros Hv. unfold cell_text. rewrite Hv. by destruct v as [|[|c s]].
Qed.

Lemma lex_run_app_Some (st st1 : lex_state) (s1 s2 : string) (ts1 : list token) :
  lex_run st s1 = Some (st1, ts1) →
  lex_run st (s1 +:+ s2) =
    match lex_run st1 s2 with
    | None => None
    | Some (st2, ts2) => Some (st2, (ts1 ++ ts2)%list)
    end.
Proof.
  revert st ts1. induction s1 as [|c s1 IH]; intros st ts1 Hrun.
  - injection Hrun as -> <-. change ("" +:+ s2) with s2.
    by destruct (lex_run st1 s2) as [[? ?]|].
  - rewrite str_app_cons. cbn [lex_run] in *.
    destruct (lex_step st c) as [[st' ts]|]; [|done].
    destruct (lex_run st' s1) as [[st'' ts']|] eqn:Hrest; [|done].
    injection Hrun as -> <-. rewrite (IH _ _ Hrest).
    destruct (lex_run st1 s2) as [[? ?]|]; [|done]. by rewrite app_assoc.
Qed.

(** Inside a literal, the doubled quotes of [replace_quote s] read back as
    the characters of [s]. *)
Lemma lex_run_replace_quote (s acc : string) :
  lex_run (LStr acc) (replace_quote s) = Some (LStr (acc +:+ s), []).
Proof.
  revert acc. induction s as [|c s IH]; intros acc; cbn.
  - by rewrite str_app_nil_r.
  - destruct (Ascii.eqb c "'") eqn:Hc.
    + apply Ascii.eqb_eq in Hc as ->. cbn. rewrite IH. by rewrite snoc_app.
    + cbn. rewrite Hc, IH. by rewrite snoc_app.
Qed.

Lemma lex_run_digits (s acc : string) :
  all_digits s = true → lex_run (LNum acc) s = Some (LNum (acc +:+ s), []).
Proof.
  revert acc. induction s as [|c s IH]; intros acc Hs; cbn in *.
  - by rewrite str_app_nil_r.
  - apply andb_true_iff in Hs as [Hc Hs]. rewrite Hc, IH by done.
    by rewrite snoc_app.
Qed.

Lemma lex_run_int_literal (s : string) :
  is_int_literal s = true → lex_run LStart s = Some (LNum s, []).
Proof.
  destruct s as [|c s]; [done|]. cbn [is_int_literal].
  destruct (Ascii.eqb c "-") eqn:Hc.
  - apply Ascii.eqb_eq in Hc as ->. destruct s as [|d s]; [done|].
    cbn [digits all_digits]. intros [Hd Hs]%andb_true_iff.
    cbn [lex_run lex_step].
    change (lex_start "-") with (Some (LSign, @nil token)).
    cbn [lex_run lex_step]. rewrite Hd.
    by rewrite (lex_run_digits s _ Hs).
  - cbn [digits all_digits]. intros [Hd Hs]%andb_true_iff.
    cbn [lex_run lex_step]. unfold lex_start. rewrite Hd.
    by rewrite (lex_run_digits s _ Hs).
Qed.

Lemma all_digits_string_of_uint (d : Decimal.uint) :
  all_digits (NilEmpty.string_of_uint d) = true.
Proof. induction d; cbn; done. Qed.

(** The owner id is printed as an integer literal. *)
Lemma str_of_int_literal (z : Z) : is_int_literal (str_of_int z) = true.
Proof.
  unfold str_of_int.
  assert (Hu : ∀ d, digits (NilZero.string_of_uint d) = true).
  { intros d. pose proof (all_digits_string_of_uint d) as Hd.
    destruct d; cbn in *; done. }
  destruct (Z.to_int z) as [d|d]; cbn [NilZero.string_of_int].
  - specialize (Hu d). destruct (NilZero.string_of_uint d) as [|c s]; [done|].
    cbn [is_int_literal]. destruct (Ascii.eqb c "-") eqn:Hc; [|done].
    apply Ascii.eqb_eq in Hc as ->. done.
  - cbn. apply Hu.
Qed.

(** One piece of the statement: a literal of the template, an escaped field,
    or an integer. *)
Ltac lex_piece :=
  erewrite lex_run_app_Some;
  [ | first [ apply lex_run_replace_quote
            | apply lex_run_int_literal; assumption
            | vm_compute; reflexivity ] ].

(** A statement whose text positions hold escaped texts and whose numeric
    position holds an integer literal is a valid INSERT, and its values are
    the owner id, the texts before escaping, and the number. *)
Lemma parse_insert_escaped (user_id : Z)
    (n p w e s st sc tl i pe u b v : string) :
  is_int_literal sc = true →
  parse_insert
    (format_insert user_id
       {| name := replace_quote n; phone := replace_quote p;
          wechat := replace_quote w; email := replace_quote e;
          source := replace_quote s; stage := PyStr (replace_quote st);
          temp_score := PyStr sc; temp_level := PyStr (replace_quote tl);
          interests := replace_quote i; personality := replace_quote pe;
          unique_qualities := replace_quote u;
          behavior_patterns := replace_quote b;
          investment_profile := replace_quote v |}) =
  Some [SqlNum (str_of_int user_id); SqlStr n; SqlStr p; SqlStr w; SqlStr e;
        SqlStr s; SqlStr st; SqlNum sc; SqlStr tl;
        SqlStr i; SqlStr pe; SqlStr u; SqlStr b; SqlStr v].
Proof.
  intros Hsc. unfold parse_insert, lex, format_insert.
  cbn [name phone wechat email source stage temp_score temp_level interests
       personality unique_qualities behavior_patterns investment_profile
       py_format].
  pose proof (str_of_int_literal user_id) as Hu.
  generalize dependent (str_of_int user_id). intros us Hu.
  do 44 lex_piece.
  vm_compute. reflexivity.
Qed.

Lemma replace_quote_valid_stage (s : string) :
  s ∈ valid_stages → replace_quote s = s.
Proof.
  unfold valid_stages. rewrite !elem_of_cons, elem_of_nil.
  intros H; decompose [or] H; subst; done.
Qed.

Lemma replace_quote_valid_temp (s : string) :
  s ∈ valid_temps → replace_quote s = s.
Proof.
  unfold valid_temps. rewrite !elem_of_cons, elem_of_nil.
  intros H; decompose [or] H; subst; done.
Qed.

(** C2, as the program has it.  In each of the ten free-text positions the
    statement holds the text of the cell with every quote doubled (the empty
    string for an empty or absent value); the stage and temperature_level
    positions hold values of their lists, which have no quote;
    [temperature_score] goes in as it is.  So the statement is a valid INSERT
    that reads back as the owner id and the original texts whenever the text
    in the numeric position is an integer literal. *)
Theorem free_text_quotes_doubled
    (fs : gmap string (list (list string))) (csv_file : string) (user_id : Z)
    (fieldnames : list string) (body : list (list string))
    (i : nat) (row : gmap string pyval) :
  fs !! csv_file = Some (fieldnames :: body) →
  required_fields ⊆ fieldnames →
  DictReader_rows (fieldnames :: body) !! i = Some row →
  ∃ (out stmts : list string) (l : locals),
    csv_to_sql fs csv_file user_id =
      (out, inr (join (nl +:+ nl) stmts, length stmts)) ∧
    stmts !! i = Some (format_insert user_id l) ∧
    name l = replace_quote (cell_text row "name") ∧
    phone l = replace_quote (cell_text row "phone") ∧
    wechat l = replace_quote (cell_text row "wechat") ∧
    email l = replace_quote (cell_text row "email") ∧
    source l = replace_quote (cell_text row "source") ∧
    interests l = replace_quote (cell_text row "interests") ∧
    personality l = replace_quote (cell_text row "personality") ∧
    unique_qualities l = replace_quote (cell_text row "unique_qualities") ∧
    behavior_patterns l = replace_quote (cell_text row "behavior_patterns") ∧
    investment_profile l = replace_quote (cell_text row "investment_profile") ∧
    temp_score l = get row "temperature_score" "50" ∧
    (is_int_literal (py_format (temp_score l)) = true →
     parse_insert (format_insert user_id l) =
       Some [SqlNum (str_of_int user_id);
             SqlStr (cell_text row "name");
             SqlStr (cell_text row "phone");
             SqlStr (cell_text row "wechat");
             SqlStr (cell_text row "email");
             SqlStr (cell_text row "source");
             SqlStr (py_format (stage l));
             SqlNum (py_format (temp_score l));
             SqlStr (py_format (temp_level l));
             SqlStr (cell_text row "interests");
             SqlStr (cell_text row "personality");
             SqlStr (cell_text row "unique_qualities");
             SqlStr (cell_text row "behavior_patterns");
             SqlStr (cell_text row "investment_profile")]).
Proof.
  intros Hfile Hreq Hi.
  destruct (csv_to_sql_spec fs csv_file user_id fieldnames body Hfile Hreq)
    as (out & ls & Hrun & Hlen & Hrows).
  row_facts Hrows i row Hi.
  eexists out, (format_insert user_id <$> ls), _.
  rewrite length_fmap, list_lookup_fmap, Hls.
  split; [done|]. split; [done|].
  cbn [name phone wechat email source stage temp_score temp_level interests
       personality unique_qualities behavior_patterns investment_profile].
  rewrite !escape_replace_quote.
  rewrite (escape_lookup row "name" vn Hn), (escape_lookup row "source" vs Hs).
  do 11 (split; [reflexivity|]).
  intros Hscore.
  assert (∃ st, (if py_in vst valid_stages then vst else PyStr "new_lead")
                = PyStr (replace_quote st) ∧ replace_quote st = st)
    as (st & -> & Hst').
  { destruct (py_in vst valid_stages) eqn:Hin.
    - apply py_in_true in Hin as (st & -> & Hin). exists st.
      by rewrite replace_quote_valid_stage.
    - by exists "new_lead". }
  assert (∃ tl, (if py_in (get row "temperature_level" "neutral") valid_temps
                 then get row "temperature_level" "neutral"
                 else PyStr "neutral")
                = PyStr (replace_quote tl) ∧ replace_quote tl = tl)
    as (tl & -> & Htl').
  { destruct (py_in _ valid_temps) eqn:Hin.
    - apply py_in_true in Hin as (tl & -> & Hin). exists tl.
      by rewrite replace_quote_valid_temp.
    - by exists "neutral". }
  destruct (get row "temperature_score" "50") as [|sc]; [done|].
  cbn [py_format] in Hscore |- *.
  rewrite (parse_insert_escaped user_id _ _ _ _ _ st sc tl) by done.
  by rewrite Hst', Htl'.
Qed.

(** C2 as stated fails in the numeric position: a quote in
    [temperature_score] is not doubled, and the statement is no valid SQL. *)
Lemma temperature_score_quote_not_doubled :
  ∃ (stmt : string) (l : locals),
    csv_to_sql
      {[ "clients.csv" :=
           [["name"; "source"; "stage"; "temperature_score"];
            ["Ann"; "web"; "new_lead"; "5'"]] ]}
      "clients.csv" 2 = ([], inr (stmt, 1)) ∧
    stmt = format_insert 2 l ∧
    py_format (temp_score l) = "5'" ∧
    py_format (temp_score l) ≠ replace_quote "5'" ∧
    parse_insert stmt = None.
Proof.
  eexists _, (Locals "Ann" "" "" "" "web" (PyStr "new_lead") (PyStr "5'")
                (PyStr "neutral") "" "" "" "" "").
  split; [|split; [reflexivity|]].
  - vm_compute. reflexivity.
  - split; [reflexivity|]. split; [discriminate|]. vm_compute. reflexivity.
Qed.

(** ** The theorems at the sample inputs *)

(** A closed hypothesis, by evaluation. *)
Ltac by_evaluation :=
  first [ vm_compute; reflexivity
        | apply (bool_decide_unpack _); vm_compute; exact I ].


Lemma free_text_quotes_doubled_witness :
  ∃ (out stmts : list string) (l : locals),
    csv_to_sql sample_fs "clients.csv" 3 =
      (out, inr (join (nl +:+ nl) stmts, length stmts)) ∧
    stmts !! 0 = Some (format_insert 3 l) ∧
    name l = "O''Brien" ∧
    parse_insert (format_insert 3 l) =
      Some [SqlNum "3"; SqlStr "O'Brien"; SqlStr ""; SqlStr ""; SqlStr "";
            SqlStr "referral"; SqlStr (py_format (stage l)); SqlNum "80";
            SqlStr (py_format (temp_level l));
            SqlStr ""; SqlStr ""; SqlStr ""; SqlStr ""; SqlStr ""].
Proof.
  destruct (free_text_quotes_doubled sample_fs "clients.csv" 3
              sample_fieldnames sample_body 0
              (DictReader_row sample_fieldnames
                 ["O'Brien"; "referral"; "new_lead"; "80"; "hot"]))
    as (out & stmts & l & Hrun & Hstmt & Hname & _ & _ & _ & _ & _ & _ & _ & _
        & _ & Hscore & Hparse); [by_evaluation..|].
  exists out, stmts, l. split; [exact Hrun|]. split; [exact Hstmt|].
  split; [exact Hname|].
  rewrite Hparse; [|rewrite Hscore; by_evaluation].
  rewrite Hscore. reflexivity.
Defined.


Lemma missing_optional_defaults_witness :
  ∃ (out stmts : list string) (l : locals),
    csv_to_sql scenario_fs "clients.csv" 3 =
      (out, inr (join (nl +:+ nl) stmts, length stmts)) ∧
    stmts !! 0 = Some (insert_statement (sql_values 3 l)) ∧
    column_value (sql_values 3 l) "phone" = Some "''" ∧
    column_value (sql_values 3 l) "wechat" = Some "''" ∧
    column_value (sql_values 3 l) "email" = Some "''" ∧
    column_value (sql_values 3 l) "interests" = Some "''" ∧
    column_value (sql_values 3 l) "personality" = Some "''" ∧
    column_value (sql_values 3 l) "unique_qualities" = Some "''" ∧
    column_value (sql_values 3 l) "behavior_patterns" = Some "''" ∧
    column_value (sql_values 3 l) "investment_profile" = Some "''" ∧
    column_value (sql_values 3 l) "temperature_score" = Some "50" ∧
    column_value (sql_values 3 l) "temperature_level" = Some "'neutral'".
Proof.
  destruct (missing_optional_defaults scenario_fs "clients.csv" 3
              scenario_fieldnames scenario_body 0
              (DictReader_row scenario_fieldnames
                 ["O'Brien"; "referral"; "new_lead"]))
    as (out & stmts & l & Hrun & _ & Hstmt & H1 & H2 & H3 & H4 & H5 & H6 & H7
        & H8 & H9 & H10); [by_evaluation..|].
  assert (Habsent : ∀ key, bool_decide (key ∈ scenario_fieldnames) = false →
                           key ∉ scenario_fieldnames).
  { intros key Hkey%bool_decide_eq_false. exact Hkey. }
  exists out, stmts, l. split; [exact Hrun|]. split; [exact Hstmt|].
  repeat split;
    [ apply H1 | apply H2 | apply H3 | apply H4 | apply H5 | apply H6
    | apply H7 | apply H8 | apply H9 | apply H10 ];
    apply Habsent; vm_compute; reflexivity.
Defined.

Lemma temperature_score_verbatim_witness :
  ∃ (out stmts : list string) (l : locals),
    csv_to_sql sample_fs "clients.csv" 3 =
      (out, inr (join (nl +:+ nl) stmts, length stmts)) ∧
    stmts !! 2 = Some (format_insert 3 l) ∧
    stmts !! 2 = Some (insert_statement (sql_values 3 l)) ∧
    column_value (sql_values 3 l) "temperature_score" = Some "x" ∧
    temp_score l = PyStr "x" ∧
    py_format (temp_score l) = "x".
Proof.
  apply (temperature_score_verbatim sample_fs "clients.csv" 3
           sample_fieldnames sample_body 2
           (DictReader_row sample_fieldnames ["Kim"; "ad"; ""; "x"; ""]) "x");
    by_evaluation.
Defined.

Lemma main_fatal_writes_nothing_witness :
  let r := main (λ _, None) "2026-01-01 00:00:00" sample_fs ∅
             ["csv_to_sql.py"; "missing.csv"] in
  exit_status r = 1%Z ∧ disk_after r = ∅.
Proof.
  destruct (main_fatal_writes_nothing (λ _, None) "2026-01-01 00:00:00"
              sample_fs ∅ "csv_to_sql.py" "missing.csv" [])
    as (Hexit & Hdisk & _).
  - left. by_evaluation.
  - split; [exact Hexit | exact Hdisk].
Defined.

Lemma end_to_end_scenario_witness :
  csv_to_sql scenario_fs "clients.csv" 3 =
    ([],
     inr ("INSERT INTO clients (" +:+ nl +:+
          "  user_id, name, phone, wechat, email, source, stage," +:+ nl +:+
          "  temperature_score, temperature_level," +:+ nl +:+
          "  interests, personality, unique_qualities, behavior_patterns, investment_profile"
          +:+ nl +:+
          ") VALUES (" +:+ nl +:+
          "  3, 'O''Brien', '', '', '', 'referral', 'new_lead'," +:+ nl +:+
          "  50, 'neutral'," +:+ nl +:+
          "  '', '', '', '', ''" +:+ nl +:+
          ");",
          1)).
Proof.
  apply (end_to_end_scenario scenario_fs "clients.csv"). by_evaluation.
Defined.

Lemma enum_positions_always_valid_witness :
  ∃ (out stmts : list string) (l : locals),
    csv_to_sql sample_fs "clients.csv" 3 =
      (out, inr (join (nl +:+ nl) stmts, length stmts)) ∧
    stmts !! 2 = Some (insert_statement (sql_values 3 l)) ∧
    column_value (sql_values 3 l) "stage" = Some "'new_lead'" ∧
    stage_warning 3 (PyStr "") ∈ out ∧
    column_value (sql_values 3 l) "temperature_level" = Some "'neutral'" ∧
    temp_level_warning 3 (PyStr "") ∈ out.
Proof.
  destruct (enum_positions_always_valid sample_fs "clients.csv" 3
              sample_fieldnames sample_body 2
              (DictReader_row sample_fieldnames ["Kim"; "ad"; ""; "x"; ""]))
    as (out & stmts & l & Hrun & _ & Hstmt & _ & _ & _ & _ & Hes & Hel);
    [by_evaluation..|].
  destruct Hes as (_ & Hs & Hsw); [by_evaluation|].
  destruct Hel as (_ & Ht & Htw); [by_evaluation|].
  exists out, stmts, l. repeat split; assumption.
Defined.

Lemma empty_temperature_score_not_defaulted_witness :
  ∃ (out stmts : list string) (l : locals),
    csv_to_sql sample_fs "clients.csv" 3 =
      (out, inr (join (nl +:+ nl) stmts, length stmts)) ∧
    stmts !! 1 = Some (insert_statement (sql_values 3 l)) ∧
    "temperature_score" ∈ sample_fieldnames ∧
    column_value (sql_values 3 l) "temperature_score" = Some "".
Proof.
  destruct (empty_temperature_score_not_defaulted sample_fs "clients.csv" 3
              sample_fieldnames sample_body 1
              (DictReader_row sample_fieldnames
                 ["Li"; "web"; "vip"; ""; "lukewarm"]))
    as (out & stmts & l & Hrun & _ & Hstmt & Hempty & _); [by_evaluation..|].
  destruct Hempty as (Hcol & _ & _ & Htext); [by_evaluation|].
  exists out, stmts, l. repeat split; assumption.
Defined.

Lemma csv_to_sql_deterministic_witness :
  csv_to_sql scenario_fs "clients.csv" 3 =
  csv_to_sql
    {[ "copy.csv" :=
         [["stage"; "name"; "source"]; ["new_lead"; "O'Brien"; "referral"]] ]}
    "copy.csv" 3.
Proof.
  apply (csv_to_sql_deterministic
           scenario_fs
           {[ "copy.csv" :=
                [["stage"; "name"; "source"];
                 ["new_lead"; "O'Brien"; "referral"]] ]}
           "clients.csv" "copy.csv" 3
           scenario_fieldnames ["stage"; "name"; "source"]
           scenario_body [["new_lead"; "O'Brien"; "referral"]]);
    by_evaluation.
Defined.


(** * Further properties of the program *)

(** ** When [csv_to_sql] returns and how it fails *)

Lemma csv_to_sql_missing (fs : gmap string (list (list string)))
    (csv_file : string) (user_id : Z) :
  fs !! csv_file = None →
  csv_to_sql fs csv_file user_id =
    (["❌ 错误：文件 " +:+ csv_file +:+ " 不存在"], inl (SystemExit 1)).
Proof. intros Hnone. unfold csv_to_sql. by rewrite Hnone. Qed.

Lemma csv_to_sql_no_header (fs : gmap string (list (list string)))
    (csv_file : string) (user_id : Z) :
  fs !! csv_file = Some [] →
  csv_to_sql fs csv_file user_id =
    (["❌ 错误：处理 CSV 文件时出错"; "详细信息：" +:+ none_not_iterable],
     inl (SystemExit 1)).
Proof. intros Hfile. unfold csv_to_sql. by rewrite Hfile. Qed.

Lemma csv_to_sql_lacking (fs : gmap string (list (list string)))
    (csv_file : string) (user_id : Z) (fieldnames : list string)
    (body : list (list string)) :
  fs !! csv_file = Some (fieldnames :: body) →
  ¬ required_fields ⊆ fieldnames →
  csv_to_sql fs csv_file user_id =
    (["❌ 错误：CSV 文件缺少必需字段";
      "必需字段: name, source, stage";
      "当前字段: " +:+ join ", " fieldnames], inl (SystemExit 1)).
Proof.
  intros Hfile Hlack. unfold csv_to_sql. rewrite Hfile. cbn [fieldnames_of head].
  destruct (forallb _ required_fields) eqn:Hcheck; [|done].
  by apply required_check in Hcheck.
Qed.

(** The four cases of an input, and the outcome of each. *)
Lemma csv_to_sql_cases (fs : gmap string (list (list string)))
    (csv_file : string) (user_id : Z) :
  (∃ out, csv_to_sql fs csv_file user_id = (out, inl (SystemExit 1)) ∧
     (fs !! csv_file = None ∨ fs !! csv_file = Some [] ∨
      ∃ fieldnames body, fs !! csv_file = Some (fieldnames :: body) ∧
                         ¬ required_fields ⊆ fieldnames)) ∨
  (∃ out ls fieldnames body,
     fs !! csv_file = Some (fieldnames :: body) ∧
     required_fields ⊆ fieldnames ∧
     csv_to_sql fs csv_file user_id =
       (out, inr (join (nl +:+ nl) (format_insert user_id <$> ls), length ls)) ∧
     length ls = length (DictReader_rows (fieldnames :: body))).
Proof.
  destruct (fs !! csv_file) as [[|fieldnames body]|] eqn:Hfile.
  - left. eexists. split; [by apply csv_to_sql_no_header|]. auto.
  - destruct (decide (required_fields ⊆ fieldnames)) as [Hreq|Hlack].
    + right.
      destruct (csv_to_sql_spec fs csv_file user_id fieldnames body Hfile Hreq)
        as (out & ls & Hrun & Hlen & _).
      by exists out, ls, fieldnames, body.
    + left. eexists. split; [by eapply csv_to_sql_lacking|].
      right. right. by exists fieldnames, body.
  - left. eexists. split; [by apply csv_to_sql_missing|]. auto.
Qed.

(** ** Files that fail while they are read *)

(** On files that are read to their end the two models agree. *)
Lemma csv_to_sql_complete (fs : gmap string (list (list string)))
    (csv_file : string) (user_id : Z) :
  csv_to_sql fs csv_file user_id
    = csv_to_sql_reading (complete <$> fs) csv_file user_id.
Proof.
  unfold csv_to_sql, csv_to_sql_reading. rewrite lookup_fmap.
  by destruct (fs !! csv_file) as [[|fieldnames body]|].
Qed.

Lemma main_complete (py_int : string → option Z) (now : string)
    (fs : gmap string (list (list string))) (disk : gmap string string)
    (argv : list string) :
  main py_int now fs disk argv
    = main_reading py_int now (complete <$> fs) disk argv.
Proof.
  unfold main, main_reading.
  destruct argv as [|prog [|csv_file rest]]; [done..|].
  destruct (owner_id py_int rest) as [user_id|]; [|done].
  by rewrite csv_to_sql_complete.
Qed.

(** A file is accepted when it is read to its end and its header names the
    required fields; on every other input the outcome is [sys.exit(1)]. *)
Lemma csv_to_sql_reading_cases (files : gmap string reading)
    (csv_file : string) (user_id : Z) :
  (∃ out, csv_to_sql_reading files csv_file user_id
            = (out, inl (SystemExit 1)) ∧
          ¬ ∃ fieldnames body,
              files !! csv_file = Some (complete (fieldnames :: body)) ∧
              required_fields ⊆ fieldnames) ∨
  (∃ out res fieldnames body,
     files !! csv_file = Some (complete (fieldnames :: body)) ∧
     required_fields ⊆ fieldnames ∧
     csv_to_sql_reading files csv_file user_id = (out, inr res)).
Proof.
  unfold csv_to_sql_reading.
  destruct (files !! csv_file) as [[[|fieldnames body] [msg|]]|] eqn:Hfile;
    cbn [yielded failure].
  - left. eexists. split; [reflexivity|]. by intros (? & ? & ? & _).
  - left. eexists. split; [reflexivity|]. by intros (? & ? & ? & _).
  - left. destruct (forallb _ required_fields) eqn:Hcheck; cbn [negb].
    + apply required_check in Hcheck.
      assert (Hall : Forall has_required (DictReader_rows (fieldnames :: body))).
      { cbn. apply Forall_fmap, Forall_forall. intros rec _.
        by apply DictReader_row_has_required. }
      destruct (for_rows_spec user_id _ Hall [] 0) as (out & ls & Hrun & _).
      unfold mbind, io_mbind, io_bind. rewrite Hrun. cbn.
      eexists. split; [reflexivity|]. by intros (? & ? & ? & _).
    + eexists. split; [reflexivity|]. by intros (? & ? & ? & _).
  - destruct (forallb _ required_fields) eqn:Hcheck; cbn [negb].
    + right. apply required_check in Hcheck.
      assert (Hall : Forall has_required (DictReader_rows (fieldnames :: body))).
      { cbn. apply Forall_fmap, Forall_forall. intros rec _.
        by apply DictReader_row_has_required. }
      destruct (for_rows_spec user_id _ Hall [] 0) as (out & ls & Hrun & _).
      unfold mbind, io_mbind, io_bind. rewrite Hrun. cbn.
      by eexists _, _, fieldnames, body.
    + left. eexists. split; [reflexivity|].
      intros (fieldnames' & body' & [= <- <-] & Hreq%required_check).
      congruence.
  - left. eexists. split; [reflexivity|]. by intros (? & ? & ? & _).
Qed.

(** X1. [csv_to_sql] returns exactly when the path exists, the file is read
    to its end without an exception, it has a header record, and the header
    names the three required fields. *)
Theorem csv_to_sql_returns_iff (files : gmap string reading)
    (csv_file : string) (user_id : Z) :
  (∃ out sql count,
     csv_to_sql_reading files csv_file user_id = (out, inr (sql, count)))
  ↔ ∃ fieldnames body,
      files !! csv_file = Some (complete (fieldnames :: body)) ∧
      required_fields ⊆ fieldnames.
Proof.
  destruct (csv_to_sql_reading_cases files csv_file user_id)
    as [(out & Hexit & Hnot)|(out & [sql count] & fieldnames & body
                              & Hfile & Hreq & Hret)].
  - split; [|done]. intros (out' & sql & count & Hret). congruence.
  - split; [by exists fieldnames, body|]. intros _. by exists out, sql, count.
Qed.

(** X2. Whatever goes wrong, [csv_to_sql] leaves through [sys.exit(1)]: no
    [KeyError] or [TypeError] gets past its handler, and no other exit code is
    used. *)
Theorem csv_to_sql_fails_with_exit_1 (fs : gmap string (list (list string)))
    (csv_file : string) (user_id : Z) (out : list string) (e : exc) :
  csv_to_sql fs csv_file user_id = (out, inl e) → e = SystemExit 1.
Proof.
  intros Hrun.
  destruct (csv_to_sql_cases fs csv_file user_id)
    as [(out' & Hexit & _)|(out' & ls & ? & ? & _ & _ & Hret & _)]; congruence.
Qed.

(** X3. A file with no record at all (not even a header) is a processing
    error: the [in] test on the missing field names raises, the handler
    prints its two lines, and the exit code is 1. *)
Theorem csv_to_sql_empty_file (fs : gmap string (list (list string)))
    (csv_file : string) (user_id : Z) :
  fs !! csv_file = Some [] →
  ∃ detail,
    csv_to_sql fs csv_file user_id =
      (["❌ 错误：处理 CSV 文件时出错"; "详细信息：" +:+ detail],
       inl (SystemExit 1)).
Proof. intros Hfile. eexists. by apply csv_to_sql_no_header. Qed.

(** X4. A file with the header and no data row (nothing, or only blank
    records, after the header) is no error: the text is empty, the count is 0
    and nothing is printed. *)
Theorem csv_to_sql_header_only (fs : gmap string (list (list string)))
    (csv_file : string) (user_id : Z) (fieldnames : list string)
    (body : list (list string)) :
  fs !! csv_file = Some (fieldnames :: body) →
  required_fields ⊆ fieldnames →
  Forall (λ rec, rec = []) body →
  csv_to_sql fs csv_file user_id = ([], inr ("", 0)).
Proof.
  intros Hfile Hreq%required_check Hblank.
  unfold csv_to_sql. rewrite Hfile. cbn [fieldnames_of head]. rewrite Hreq.
  assert (DictReader_rows (fieldnames :: body) = []) as ->; [|done].
  cbn. assert (filter nonblank body = []) as ->; [|done].
  clear Hfile. induction Hblank as [|rec body -> _ IH]; [done|].
  rewrite filter_cons_False; [done|]. by intros [].
Qed.

(** ** What is printed *)

Lemma row_locals_out (count : nat) (row : gmap string pyval) :
  has_required row → (row_locals count row).1 = row_warnings count row.
Proof.
  intros (vn & vs & vst & Hn & Hs & Hst)%has_required_lookups.
  rewrite (row_locals_eq count row vn vs vst Hn Hs Hst).
  unfold row_warnings. by rewrite Hst.
Qed.

Lemma for_rows_out (user_id : Z) (rows : list (gmap string pyval)) :
  Forall has_required rows →
  ∀ (sql_statements : list string) (count : nat),
    (for_rows user_id rows sql_statements count).1 = all_warnings count rows.
Proof.
  induction 1 as [|row rows Hrow _ IH]; intros stmts count; [done|].
  cbn [for_rows all_warnings]. rewrite <- (row_locals_out (S count) row Hrow).
  destruct (row_locals_total (S count) row Hrow) as (w & l & Hl).
  unfold mbind, io_mbind, io_bind. rewrite Hl.
  rewrite <- (IH (stmts ++ [format_insert user_id l])%list (S count)).
  by destruct (for_rows _ _ _ _).
Qed.

Lemma csv_to_sql_out (fs : gmap string (list (list string)))
    (csv_file : string) (user_id : Z) (fieldnames : list string)
    (body : list (list string)) :
  fs !! csv_file = Some (fieldnames :: body) →
  required_fields ⊆ fieldnames →
  (csv_to_sql fs csv_file user_id).1
    = all_warnings 0 (DictReader_rows (fieldnames :: body)).
Proof.
  intros Hfile Hreq.
  assert (Hall : Forall has_required (DictReader_rows (fieldnames :: body))).
  { cbn. apply Forall_fmap, Forall_forall. intros rec _.
    by apply DictReader_row_has_required. }
  pose proof (for_rows_out user_id _ Hall [] 0) as Hout.
  destruct (for_rows_spec user_id _ Hall [] 0) as (out & ls & Hrun & _).
  rewrite Hrun in Hout. cbn in Hout. subst out.
  unfold csv_to_sql. rewrite Hfile. cbn [fieldnames_of head].
  apply required_check in Hreq. rewrite Hreq. cbn [negb].
  unfold mbind, io_mbind, io_bind. rewrite Hrun. cbn. by rewrite app_nil_r.
Qed.

(** X5. On a file that is accepted, what [csv_to_sql] prints is exactly the
    warnings of its rows in input order, numbered from 1, for each row the
    stage warning before the temperature-level warning; nothing else. *)
Theorem csv_to_sql_prints_warnings_in_order
    (fs : gmap string (list (list string))) (csv_file : string) (user_id : Z)
    (fieldnames : list string) (body : list (list string)) :
  fs !! csv_file = Some (fieldnames :: body) →
  required_fields ⊆ fieldnames →
  ∃ res,
    csv_to_sql fs csv_file user_id =
      (all_warnings 0 (DictReader_rows (fieldnames :: body)), inr res).
Proof.
  intros Hfile Hreq.
  pose proof (csv_to_sql_out fs csv_file user_id fieldnames body Hfile Hreq)
    as Hout.
  destruct (csv_to_sql_spec fs csv_file user_id fieldnames body Hfile Hreq)
    as (out & ls & Hrun & _).
  rewrite Hrun in Hout |- *. cbn in Hout. subst out. by eexists.
Qed.

Lemma row_warnings_nil (count : nat) (row : gmap string pyval) :
  is_Some (row !! "stage") →
  row_warnings count row = [] ↔ row_valid row = true.
Proof.
  intros [v Hv]. unfold row_warnings, row_valid. rewrite Hv.
  destruct (py_in v valid_stages),
    (py_in (get row "temperature_level" "neutral") valid_temps); cbn;
    split; done.
Qed.

Lemma all_warnings_nil (count : nat) (rows : list (gmap string pyval)) :
  Forall has_required rows →
  all_warnings count rows = [] ↔ Forall (λ row, row_valid row = true) rows.
Proof.
  intros Hall. revert count.
  induction Hall as [|row rows Hrow _ IH]; intros count; cbn [all_warnings].
  - split; [constructor|done].
  - assert (Hstage : is_Some (row !! "stage")).
    { apply Hrow. by apply (bool_decide_unpack _). }
    rewrite Forall_cons, <- (IH (S count)),
      <- (row_warnings_nil (S count) row Hstage).
    split.
    + by intros [? ?]%app_eq_nil.
    + by intros [-> ->].
Qed.

(** X6. [csv_to_sql] prints nothing exactly when, in every row, the stage is
    one of the seven values and the temperature level (or its default) one of
    the four. *)
Theorem csv_to_sql_silent_iff_rows_valid
    (fs : gmap string (list (list string))) (csv_file : string) (user_id : Z)
    (fieldnames : list string) (body : list (list string)) :
  fs !! csv_file = Some (fieldnames :: body) →
  required_fields ⊆ fieldnames →
  (csv_to_sql fs csv_file user_id).1 = [] ↔
  Forall (λ row, row_valid row = true) (DictReader_rows (fieldnames :: body)).
Proof.
  intros Hfile Hreq.
  rewrite (csv_to_sql_out fs csv_file user_id fieldnames body Hfile Hreq).
  apply all_warnings_nil.
  cbn. apply Forall_fmap, Forall_forall. intros rec _.
  by apply DictReader_row_has_required.
Qed.

(** X7. A stage and a temperature level that are in their lists go into the
    statement as they are: the literal under the stage column, and under the
    temperature_level column, is the value of the row between quotes. *)
Theorem valid_enum_values_kept
    (fs : gmap string (list (list string))) (csv_file : string) (user_id : Z)
    (fieldnames : list string) (body : list (list string))
    (i : nat) (row : gmap string pyval) :
  fs !! csv_file = Some (fieldnames :: body) →
  required_fields ⊆ fieldnames →
  DictReader_rows (fieldnames :: body) !! i = Some row →
  ∃ (out stmts : list string) (l : locals),
    csv_to_sql fs csv_file user_id =
      (out, inr (join (nl +:+ nl) stmts, length stmts)) ∧
    stmts !! i = Some (format_insert user_id l) ∧
    stmts !! i = Some (insert_statement (sql_values user_id l)) ∧
    (∀ s, row !! "stage" = Some (PyStr s) → s ∈ valid_stages →
       stage l = PyStr s ∧
       column_value (sql_values user_id l) "stage" = Some (sql_quote s)) ∧
    (∀ s, row !! "temperature_level" = Some (PyStr s) → s ∈ valid_temps →
       temp_level l = PyStr s ∧
       column_value (sql_values user_id l) "temperature_level"
         = Some (sql_quote s)).
Proof.
  intros Hfile Hreq Hi.
  destruct (csv_to_sql_spec fs csv_file user_id fieldnames body Hfile Hreq)
    as (out & ls & Hrun & Hlen & Hrows).
  row_facts Hrows i row Hi.
  eexists out, (format_insert user_id <$> ls), _.
  rewrite length_fmap, list_lookup_fmap, Hls. cbn [fmap option_fmap option_map].
  split; [done|]. split; [done|].
  split; [by rewrite format_insert_text|].
  unfold column_value, sql_values. cbn [stage temp_level]. split.
  - intros s Hstage Hin. rewrite Hst in Hstage. injection Hstage as ->.
    cbn [py_in]. by rewrite bool_decide_eq_true_2.
  - intros s Hlevel Hin. unfold get. rewrite Hlevel. cbn [from_option id py_in].
    by rewrite bool_decide_eq_true_2.
Qed.

(** ** Columns the program does not know *)

Lemma row_locals_same_recognized (count : nat) (row1 row2 : gmap string pyval) :
  same_recognized row1 row2 → row_locals count row1 = row_locals count row2.
Proof.
  intros Hsame.
  assert (Hkey : ∀ key, bool_decide (key ∈ recognized_fields) = true →
                        row1 !! key = row2 !! key).
  { intros key Hkey%bool_decide_eq_true. by apply Hsame. }
  unfold row_locals, getitem, get.
  by rewrite (Hkey "name"), (Hkey "phone"), (Hkey "wechat"), (Hkey "email"),
    (Hkey "source"), (Hkey "stage"), (Hkey "temperature_score"),
    (Hkey "temperature_level"), (Hkey "interests"), (Hkey "personality"),
    (Hkey "unique_qualities"), (Hkey "behavior_patterns"),
    (Hkey "investment_profile").
Qed.

Lemma for_rows_same_recognized (user_id : Z)
    (rows1 rows2 : list (gmap string pyval)) :
  Forall2 same_recognized rows1 rows2 →
  ∀ (sql_statements : list string) (count : nat),
    for_rows user_id rows1 sql_statements count
      = for_rows user_id rows2 sql_statements count.
Proof.
  induction 1 as [|row1 row2 rows1 rows2 Hrow _ IH]; intros stmts count;
    [done|].
  cbn [for_rows]. rewrite (row_locals_same_recognized _ _ _ Hrow).
  unfold mbind, io_mbind, io_bind.
  destruct (row_locals (S count) row2) as [w [e|l]]; [done|]. by rewrite IH.
Qed.

(** X8. Columns with other names than the thirteen the program reads change
    nothing: two accepted files whose rows agree under those thirteen names
    give the same text, the same count and the same warnings. *)
Theorem unrecognized_columns_ignored
    (fs1 fs2 : gmap string (list (list string))) (file1 file2 : string)
    (user_id : Z) (fieldnames1 fieldnames2 : list string)
    (body1 body2 : list (list string)) :
  fs1 !! file1 = Some (fieldnames1 :: body1) →
  fs2 !! file2 = Some (fieldnames2 :: body2) →
  required_fields ⊆ fieldnames1 →
  required_fields ⊆ fieldnames2 →
  Forall2 same_recognized (DictReader_rows (fieldnames1 :: body1))
    (DictReader_rows (fieldnames2 :: body2)) →
  csv_to_sql fs1 file1 user_id = csv_to_sql fs2 file2 user_id.
Proof.
  intros Hfile1 Hfile2 Hreq1%required_check Hreq2%required_check Hrows.
  unfold csv_to_sql. rewrite Hfile1, Hfile2. cbn [fieldnames_of head].
  rewrite Hreq1, Hreq2. cbn [negb].
  by rewrite (for_rows_same_recognized user_id _ _ Hrows).
Qed.

(** ** From the cells of a record to the statement *)

Lemma foldl_insert_lookup_last {A B} (f : A → string) (g : A → B)
    (xs : list A) (d : gmap string B) (j : nat) (x : A) :
  xs !! j = Some x →
  f x ∉ f <$> drop (S j) xs →
  foldl (λ d x, <[f x := g x]> d) d xs !! f x = Some (g x).
Proof.
  intros Hj Hlast.
  rewrite <- (take_drop_middle xs j x Hj), foldl_app. cbn [foldl].
  rewrite foldl_insert_lookup_notin by done. apply lookup_insert_eq.
Qed.

(** The entry of a row under a column name: the cell of the last column with
    that name, [None] when the record is too short to have one. *)
Lemma DictReader_row_cell (fieldnames row : list string) (j : nat)
    (key : string) :
  fieldnames !! j = Some key →
  key ∉ drop (S j) fieldnames →
  DictReader_row fieldnames row !! key =
    Some (match row !! j with
          | Some cell => PyStr cell
          | None => PyNone
          end).
Proof.
  intros Hj Hlast. unfold DictReader_row.
  destruct (row !! j) as [cell|] eqn:Hcell.
  - pose proof (lookup_lt_Some _ _ _ Hcell) as Hlt.
    rewrite (foldl_insert_lookup_notin id (λ _, PyNone)).
    + apply (foldl_insert_lookup_last fst (λ kv, PyStr kv.2) _ _ j (key, cell)).
      * rewrite lookup_zip_with, Hj. cbn. by rewrite Hcell.
      * cbn [fst]. rewrite fmap_drop, fst_zip_take. intros Hin.
        apply Hlast. rewrite <- (take_drop (length row) fieldnames).
        rewrite drop_app_le by (rewrite length_take; lia || (apply lookup_lt_Some in Hj; lia)).
        apply elem_of_app. by left.
    + rewrite list_fmap_id. intros Hin. apply Hlast.
      replace (length row) with (S j + (length row - S j)) in Hin by lia.
      rewrite <- drop_drop in Hin. by eapply subseteq_drop.
  - apply lookup_ge_None in Hcell.
    apply (foldl_insert_lookup_last id (λ _, PyNone) _ _ (j - length row) key).
    + rewrite lookup_drop. by replace (length row + (j - length row)) with j by lia.
    + rewrite list_fmap_id, drop_drop.
      by replace (length row + S (j - length row)) with (S j) by lia.
Qed.

Lemma escape_PyStr (s : string) : escape (PyStr s) = replace_quote s.
Proof. by destruct s. Qed.

(** One conjunct of the theorem below: the cell of a column, found in the
    row, decides the local of that column and the literal under it. *)
Ltac cell_to_local fieldnames rec :=
  let cell := fresh "cell" in
  let j := fresh "j" in
  let Hj := fresh "Hj" in
  let Hlast := fresh "Hlast" in
  let Hcell := fresh "Hcell" in
  let Hrow := fresh "Hrow" in
  intros cell (j & Hj & Hlast & Hcell);
  pose proof (DictReader_row_cell fieldnames rec j _ Hj Hlast) as Hrow;
  rewrite Hcell in Hrow;
  first [ unfold get; rewrite Hrow; cbn [from_option id];
          first [ by rewrite escape_PyStr | done ]
        | match goal with
          | H : DictReader_row fieldnames rec !! _ = Some ?v |- _ =>
              rewrite Hrow in H; injection H as <-; by rewrite escape_PyStr
          end ].

(** X9. The statement of a row is made of the cells of its record: under
    each of the ten free-text columns stands the cell of the (last) input
    column of that name with its quotes doubled, between quotes, and under
    the temperature_score column stands the cell of the [temperature_score]
    column as it is, bare. *)
Theorem cells_reach_statement
    (fs : gmap string (list (list string))) (csv_file : string) (user_id : Z)
    (fieldnames : list string) (body : list (list string))
    (i : nat) (rec : list string) :
  fs !! csv_file = Some (fieldnames :: body) →
  required_fields ⊆ fieldnames →
  filter nonblank body !! i = Some rec →
  ∃ (out stmts : list string) (l : locals),
    csv_to_sql fs csv_file user_id =
      (out, inr (join (nl +:+ nl) stmts, length stmts)) ∧
    stmts !! i = Some (format_insert user_id l) ∧
    stmts !! i = Some (insert_statement (sql_values user_id l)) ∧
    (∀ cell, column_cell fieldnames rec "name" cell →
       name l = replace_quote cell ∧
       column_value (sql_values user_id l) "name"
         = Some (sql_quote (replace_quote cell))) ∧
    (∀ cell, column_cell fieldnames rec "phone" cell →
       phone l = replace_quote cell ∧
       column_value (sql_values user_id l) "phone"
         = Some (sql_quote (replace_quote cell))) ∧
    (∀ cell, column_cell fieldnames rec "wechat" cell →
       wechat l = replace_quote cell ∧
       column_value (sql_values user_id l) "wechat"
         = Some (sql_quote (replace_quote cell))) ∧
    (∀ cell, column_cell fieldnames rec "email" cell →
       email l = replace_quote cell ∧
       column_value (sql_values user_id l) "email"
         = Some (sql_quote (replace_quote cell))) ∧
    (∀ cell, column_cell fieldnames rec "source" cell →
       source l = replace_quote cell ∧
       column_value (sql_values user_id l) "source"
         = Some (sql_quote (replace_quote cell))) ∧
    (∀ cell, column_cell fieldnames rec "interests" cell →
       interests l = replace_quote cell ∧
       column_value (sql_values user_id l) "interests"
         = Some (sql_quote (replace_quote cell))) ∧
    (∀ cell, column_cell fieldnames rec "personality" cell →
       personality l = replace_quote cell ∧
       column_value (sql_values user_id l) "personality"
         = Some (sql_quote (replace_quote cell))) ∧
    (∀ cell, column_cell fieldnames rec "unique_qualities" cell →
       unique_qualities l = replace_quote cell ∧
       column_value (sql_values user_id l) "unique_qualities"
         = Some (sql_quote (replace_quote cell))) ∧
    (∀ cell, column_cell fieldnames rec "behavior_patterns" cell →
       behavior_patterns l = replace_quote cell ∧
       column_value (sql_values user_id l) "behavior_patterns"
         = Some (sql_quote (replace_quote cell))) ∧
    (∀ cell, column_cell fieldnames rec "investment_profile" cell →
       investment_profile l = replace_quote cell ∧
       column_value (sql_values user_id l) "investment_profile"
         = Some (sql_quote (replace_quote cell))) ∧
    (∀ cell, column_cell fieldnames rec "temperature_score" cell →
       temp_score l = PyStr cell ∧
       column_value (sql_values user_id l) "temperature_score" = Some cell).
Proof.
  intros Hfile Hreq Hrec.
  assert (Hi : DictReader_rows (fieldnames :: body) !! i
               = Some (DictReader_row fieldnames rec)).
  { cbn. by rewrite list_lookup_fmap, Hrec. }
  destruct (csv_to_sql_spec fs csv_file user_id fieldnames body Hfile Hreq)
    as (out & ls & Hrun & Hlen & Hrows).
  row_facts Hrows i (DictReader_row fieldnames rec) Hi.
  eexists out, (format_insert user_id <$> ls), _.
  rewrite length_fmap, list_lookup_fmap, Hls. cbn [fmap option_fmap option_map].
  split; [done|]. split; [done|].
  split; [by rewrite format_insert_text|].
  unfold column_value, sql_values.
  cbn [name phone wechat email source temp_score interests personality
       unique_qualities behavior_patterns investment_profile].
  cbn [column_value_in insert_columns bool_decide decide_rel].
  repeat apply conj; cell_to_local fieldnames rec.
Qed.

(** ** Cells beyond the header *)

Lemma DictReader_row_take (fieldnames row : list string) :
  DictReader_row fieldnames (take (length fieldnames) row)
    = DictReader_row fieldnames row.
Proof.
  unfold DictReader_row. rewrite zip_with_take_r. f_equal.
  rewrite length_take.
  destruct (decide (length row ≤ length fieldnames)%nat) as [Hle|Hgt].
  - by rewrite Nat.min_r.
  - rewrite Nat.min_l by lia. by rewrite !drop_ge by lia.
Qed.

Lemma filter_nonblank_take (n : nat) (body : list (list string)) :
  0 < n →
  filter nonblank (take n <$> body) = take n <$> filter nonblank body.
Proof.
  intros Hn. induction body as [|rec body IH]; [done|].
  cbn [fmap list_fmap]. destruct rec as [|cell rec].
  - rewrite take_nil. rewrite !filter_cons_False by (by intros []). done.
  - destruct n as [|n]; [lia|]. cbn [take].
    rewrite !filter_cons_True by done. cbn [fmap list_fmap take]. by f_equal.
Qed.

(** X10. Cells of a record beyond the last column of the header are ignored:
    cutting every record to the length of the header gives the same text,
    count and warnings. *)
Theorem surplus_cells_ignored
    (fs1 fs2 : gmap string (list (list string))) (file1 file2 : string)
    (user_id : Z) (fieldnames : list string) (body : list (list string)) :
  fs1 !! file1 = Some (fieldnames :: body) →
  fs2 !! file2 = Some (fieldnames :: (take (length fieldnames) <$> body)) →
  required_fields ⊆ fieldnames →
  csv_to_sql fs1 file1 user_id = csv_to_sql fs2 file2 user_id.
Proof.
  intros Hfile1 Hfile2 Hreq.
  assert (Hlen : 0 < length fieldnames).
  { destruct fieldnames; [|cbn; lia].
    assert ("name" ∈ @nil string) as Hin by (apply Hreq; left).
    by apply elem_of_nil in Hin. }
  assert (Hrows : DictReader_rows (fieldnames :: (take (length fieldnames) <$> body))
                  = DictReader_rows (fieldnames :: body)).
  { cbn. rewrite filter_nonblank_take by done. rewrite <- list_fmap_compose.
    apply list_fmap_ext. intros _ rec _. apply DictReader_row_take. }
  apply required_check in Hreq.
  unfold csv_to_sql. rewrite Hfile1, Hfile2. cbn [fieldnames_of head].
  by rewrite Hreq, Hrows.
Qed.

(** ** The escaping alone *)

Lemma escape_text_of (v : pyval) : escape v = replace_quote (text_of v).
Proof. by destruct v as [|[|c s]]. Qed.

(** X11. Escaping is undone by reading: the escaped text between two quotes
    is one SQL string literal, and the text of that literal is the original
    value ([None] reads as the empty text). *)
Theorem escape_reads_back (value : pyval) :
  lex ("'" +:+ escape value +:+ "'") = Some [TStr (text_of value)].
Proof.
  rewrite escape_text_of. unfold lex.
  erewrite lex_run_app_Some by (vm_compute; reflexivity).
  erewrite lex_run_app_Some by apply lex_run_replace_quote.
  reflexivity.
Qed.

Lemma replace_quote_inj (s1 s2 : string) :
  replace_quote s1 = replace_quote s2 → s1 = s2.
Proof.
  intros Heq. pose proof (lex_run_replace_quote s1 "") as H1.
  rewrite Heq, lex_run_replace_quote in H1. by injection H1.
Qed.

(** X12. Two values get the same escaped text exactly when they stand for
    the same text: different texts never collide, and [None] is the only
    value that shares its result (with the empty string). *)
Theorem escape_eq_iff (value1 value2 : pyval) :
  escape value1 = escape value2 ↔ text_of value1 = text_of value2.
Proof.
  rewrite !escape_text_of. split.
  - apply replace_quote_inj.
  - by intros ->.
Qed.

(** ** Numeric positions that are no number *)

(** The locals of a row, with every quoted position written as an escaped
    text. *)
Lemma row_locals_escaped (count : nat) (row : gmap string pyval) :
  has_required row →
  ∃ (w : list string) (st tl : string),
    row_locals count row =
      (w, inr {| name := replace_quote (cell_text row "name");
                 phone := replace_quote (cell_text row "phone");
                 wechat := replace_quote (cell_text row "wechat");
                 email := replace_quote (cell_text row "email");
                 source := replace_quote (cell_text row "source");
                 stage := PyStr (replace_quote st);
                 temp_score := get row "temperature_score" "50";
                 temp_level := PyStr (replace_quote tl);
                 interests := replace_quote (cell_text row "interests");
                 personality := replace_quote (cell_text row "personality");
                 unique_qualities :=
                   replace_quote (cell_text row "unique_qualities");
                 behavior_patterns :=
                   replace_quote (cell_text row "behavior_patterns");
                 investment_profile :=
                   replace_quote (cell_text row "investment_profile") |}).
Proof.
  intros (vn & vs & vst & Hn & Hs & Hst)%has_required_lookups.
  rewrite (row_locals_eq count row vn vs vst Hn Hs Hst).
  rewrite !escape_replace_quote.
  rewrite (escape_lookup row "name" vn Hn), (escape_lookup row "source" vs Hs).
  assert (∃ st, (if py_in vst valid_stages then vst else PyStr "new_lead")
                = PyStr (replace_quote st)) as (st & ->).
  { destruct (py_in vst valid_stages) eqn:Hin.
    - apply py_in_true in Hin as (st & -> & Hin). exists st.
      by rewrite replace_quote_valid_stage.
    - by exists "new_lead". }
  assert (∃ tl, (if py_in (get row "temperature_level" "neutral") valid_temps
                 then get row "temperature_level" "neutral"
                 else PyStr "neutral")
                = PyStr (replace_quote tl)) as (tl & ->).
  { destruct (py_in _ valid_temps) eqn:Hin.
    - apply py_in_true in Hin as (tl & -> & Hin). exists tl.
      by rewrite replace_quote_valid_temp.
    - by exists "neutral". }
  by eexists _, st, tl.
Qed.

(** With [None] or nothing in the numeric position the statement does not
    parse, whatever the other positions hold. *)
Lemma parse_insert_no_number (user_id : Z) (score : pyval)
    (n p w e s st tl i pe u b v : string) :
  py_format score = "None" ∨ py_format score = "" →
  parse_insert
    (format_insert user_id
       {| name := replace_quote n; phone := replace_quote p;
          wechat := replace_quote w; email := replace_quote e;
          source := replace_quote s; stage := PyStr (replace_quote st);
          temp_score := score; temp_level := PyStr (replace_quote tl);
          interests := replace_quote i; personality := replace_quote pe;
          unique_qualities := replace_quote u;
          behavior_patterns := replace_quote b;
          investment_profile := replace_quote v |}) = None.
Proof.
  intros Hscore. unfold parse_insert, lex, format_insert.
  cbn [name phone wechat email source stage temp_score temp_level interests
       personality unique_qualities behavior_patterns investment_profile].
  cbn [py_format].
  pose proof (str_of_int_literal user_id) as Hu.
  generalize dependent (str_of_int user_id). intros us Hu.
  destruct Hscore as [-> | ->]; do 44 lex_piece; vm_compute; reflexivity.
Qed.

(** X13. A record too short to reach the [temperature_score] column still
    gets its statement, with the text [None] in the numeric position: the
    statement is no valid SQL. *)
Theorem short_row_numeric_position_None
    (fs : gmap string (list (list string))) (csv_file : string) (user_id : Z)
    (fieldnames : list string) (body : list (list string))
    (i j : nat) (rec : list string) :
  fs !! csv_file = Some (fieldnames :: body) →
  required_fields ⊆ fieldnames →
  filter nonblank body !! i = Some rec →
  fieldnames !! j = Some "temperature_score" →
  "temperature_score" ∉ drop (S j) fieldnames →
  (length rec ≤ j)%nat →
  ∃ (out stmts : list string) (l : locals),
    csv_to_sql fs csv_file user_id =
      (out, inr (join (nl +:+ nl) stmts, length stmts)) ∧
    stmts !! i = Some (format_insert user_id l) ∧
    py_format (temp_score l) = "None" ∧
    parse_insert (format_insert user_id l) = None.
Proof.
  intros Hfile Hreq Hrec Hj Hlast Hshort.
  assert (Hi : DictReader_rows (fieldnames :: body) !! i
               = Some (DictReader_row fieldnames rec)).
  { cbn. by rewrite list_lookup_fmap, Hrec. }
  destruct (csv_to_sql_spec fs csv_file user_id fieldnames body Hfile Hreq)
    as (out & ls & Hrun & Hlen & Hrows).
  destruct (Hrows i _ Hi) as (Hrequired & w & l & Hl & Hls & _).
  destruct (row_locals_escaped (S i) _ Hrequired) as (w' & st & tl & Hl').
  rewrite Hl' in Hl. injection Hl as _ <-.
  pose proof (DictReader_row_cell fieldnames rec j _ Hj Hlast) as Hscore.
  rewrite (lookup_ge_None_2 rec j Hshort) in Hscore.
  unfold get in Hls |- *. rewrite Hscore in Hls. cbn [from_option id] in Hls.
  eexists out, (format_insert user_id <$> ls), _.
  rewrite length_fmap, list_lookup_fmap, Hls.
  split; [done|]. split; [done|]. split; [done|].
  apply parse_insert_no_number. by left.
Qed.

(** X14. An empty cell under [temperature_score] leaves the numeric position
    blank, and the statement is no valid SQL. *)
Theorem empty_score_cell_invalid_sql
    (fs : gmap string (list (list string))) (csv_file : string) (user_id : Z)
    (fieldnames : list string) (body : list (list string))
    (i : nat) (rec : list string) :
  fs !! csv_file = Some (fieldnames :: body) →
  required_fields ⊆ fieldnames →
  filter nonblank body !! i = Some rec →
  column_cell fieldnames rec "temperature_score" "" →
  ∃ (out stmts : list string) (l : locals),
    csv_to_sql fs csv_file user_id =
      (out, inr (join (nl +:+ nl) stmts, length stmts)) ∧
    stmts !! i = Some (format_insert user_id l) ∧
    py_format (temp_score l) = "" ∧
    parse_insert (format_insert user_id l) = None.
Proof.
  intros Hfile Hreq Hrec (j & Hj & Hlast & Hcell).
  assert (Hi : DictReader_rows (fieldnames :: body) !! i
               = Some (DictReader_row fieldnames rec)).
  { cbn. by rewrite list_lookup_fmap, Hrec. }
  destruct (csv_to_sql_spec fs csv_file user_id fieldnames body Hfile Hreq)
    as (out & ls & Hrun & Hlen & Hrows).
  destruct (Hrows i _ Hi) as (Hrequired & w & l & Hl & Hls & _).
  destruct (row_locals_escaped (S i) _ Hrequired) as (w' & st & tl & Hl').
  rewrite Hl' in Hl. injection Hl as _ <-.
  pose proof (DictReader_row_cell fieldnames rec j _ Hj Hlast) as Hscore.
  rewrite Hcell in Hscore.
  unfold get in Hls |- *. rewrite Hscore in Hls. cbn [from_option id] in Hls.
  eexists out, (format_insert user_id <$> ls), _.
  rewrite length_fmap, list_lookup_fmap, Hls.
  split; [done|]. split; [done|]. split; [done|].
  apply parse_insert_no_number. by right.
Qed.

(** ** The runs of the program *)

(** The run of [main] on a file argument, once the owner id is read. *)
Lemma main_run (py_int : string → option Z) (now : string)
    (fs : gmap string (list (list string))) (disk : gmap string string)
    (prog csv_file : string) (rest : list string) (user_id : Z) :
  owner_id py_int rest = Some user_id →
  main py_int now fs disk (prog :: csv_file :: rest) =
    match csv_to_sql fs csv_file user_id with
    | (out, inl e) =>
        Run (banner ++
             ["📂 输入文件: " +:+ csv_file;
              "👤 用户 ID: " +:+ str_of_int user_id;
              "";
              "🔄 正在转换 CSV 数据..."] ++ out)%list (status_of e) disk
    | (out, inr (sql_output, count)) =>
        Run (banner ++
             ["📂 输入文件: " +:+ csv_file;
              "👤 用户 ID: " +:+ str_of_int user_id;
              "";
              "🔄 正在转换 CSV 数据..."] ++ out ++ summary count)%list 0
          (<[output_file := file_text now csv_file user_id sql_output count]>
             disk)
    end.
Proof.
  intros Hid. unfold main. rewrite Hid. cbn zeta.
  destruct (csv_to_sql fs csv_file user_id) as [out [e|[sql count]]].
  - by rewrite <- app_assoc.
  - by rewrite <- app_assoc.
Qed.

(** X15. Every run ends with exit status 0 or 1, and a run that ends with 1
    leaves the text files as they were: no usage error, bad owner id, missing
    file, bad header or processing error writes anything. *)
Theorem main_exit_status_and_disk (py_int : string → option Z) (now : string)
    (fs : gmap string (list (list string))) (disk : gmap string string)
    (argv : list string) :
  exit_status (main py_int now fs disk argv) = 0%Z ∨
  (exit_status (main py_int now fs disk argv) = 1%Z ∧
   disk_after (main py_int now fs disk argv) = disk).
Proof.
  destruct argv as [|prog [|csv_file rest]]; [by right..|].
  destruct (owner_id py_int rest) as [user_id|] eqn:Hid.
  - rewrite (main_run _ _ _ _ _ _ _ _ Hid).
    destruct (csv_to_sql_cases fs csv_file user_id)
      as [(out & -> & _)|(out & ls & ? & ? & _ & _ & -> & _)].
    + by right.
    + by left.
  - unfold main. rewrite Hid. by right.
Qed.

(** X16. The run succeeds (exit status 0) exactly when there is a file
    argument, the owner id, if given, is an integer, the file exists and is
    read to its end without an exception, and its header names the three
    required fields. *)
Theorem main_succeeds_iff (py_int : string → option Z) (now : string)
    (files : gmap string reading) (disk : gmap string string)
    (argv : list string) :
  exit_status (main_reading py_int now files disk argv) = 0%Z ↔
  ∃ prog csv_file rest user_id fieldnames body,
    argv = prog :: csv_file :: rest ∧
    owner_id py_int rest = Some user_id ∧
    files !! csv_file = Some (complete (fieldnames :: body)) ∧
    required_fields ⊆ fieldnames.
Proof.
  unfold main_reading. split.
  - destruct argv as [|prog [|csv_file rest]]; [done..|].
    destruct (owner_id py_int rest) as [user_id|] eqn:Hid; [|done].
    cbn zeta.
    destruct (csv_to_sql_reading_cases files csv_file user_id)
      as [(out & -> & _)|(out & [sql count] & fieldnames & body
                         & Hfile & Hreq & _)]; [done|].
    intros _. by exists prog, csv_file, rest, user_id, fieldnames, body.
  - intros (prog & csv_file & rest & user_id & fieldnames & body
            & -> & Hid & Hfile & Hreq).
    rewrite Hid. cbn zeta.
    destruct (csv_to_sql_reading_cases files csv_file user_id)
      as [(out & _ & Hnot)|(out & [sql count] & _ & _ & _ & _ & ->)];
      [|done].
    destruct Hnot. by exists fieldnames, body.
Qed.

(** X17. On success the output file holds the five comment lines (source
    file, owner id, number of records, time of the run) and then the
    statements; the number in the comment is the number of data rows and of
    statements; whatever the file held before is replaced; the warnings are
    printed between the progress lines and the summary. *)
Theorem main_writes_import_sql (py_int : string → option Z) (now : string)
    (fs : gmap string (list (list string))) (disk : gmap string string)
    (prog csv_file : string) (rest : list string) (user_id : Z)
    (fieldnames : list string) (body : list (list string)) :
  owner_id py_int rest = Some user_id →
  fs !! csv_file = Some (fieldnames :: body) →
  required_fields ⊆ fieldnames →
  ∃ (ls : list locals),
    length ls = length (DictReader_rows (fieldnames :: body)) ∧
    main py_int now fs disk (prog :: csv_file :: rest) =
      Run (banner ++
           ["📂 输入文件: " +:+ csv_file;
            "👤 用户 ID: " +:+ str_of_int user_id;
            "";
            "🔄 正在转换 CSV 数据..."] ++
           all_warnings 0 (DictReader_rows (fieldnames :: body)) ++
           summary (length ls))%list
        0
        (<[output_file :=
             "-- CRM 客户数据导入脚本" +:+ nl +:+
             "-- 来源文件: " +:+ csv_file +:+ nl +:+
             "-- 用户 ID: " +:+ str_of_int user_id +:+ nl +:+
             "-- 记录数量: " +:+ str_of_nat (length ls) +:+ nl +:+
             "-- 生成时间: " +:+ now +:+ nl +:+ nl +:+
             join (nl +:+ nl) (format_insert user_id <$> ls)]> disk).
Proof.
  intros Hid Hfile Hreq.
  pose proof (csv_to_sql_out fs csv_file user_id fieldnames body Hfile Hreq)
    as Hout.
  destruct (csv_to_sql_spec fs csv_file user_id fieldnames body Hfile Hreq)
    as (out & ls & Hrun & Hlen & _).
  rewrite Hrun in Hout. cbn in Hout. subst out.
  exists ls. split; [done|].
  by rewrite (main_run _ _ _ _ _ _ _ _ Hid), Hrun.
Qed.

(** X18. No run touches a text file other than the output file. *)
Theorem main_touches_only_import_sql (py_int : string → option Z)
    (now : string) (fs : gmap string (list (list string)))
    (disk : gmap string string) (argv : list string) (path : string) :
  path ≠ "import.sql" →
  disk_after (main py_int now fs disk argv) !! path = disk !! path.
Proof.
  intros Hpath.
  destruct argv as [|prog [|csv_file rest]]; [done..|].
  destruct (owner_id py_int rest) as [user_id|] eqn:Hid.
  - rewrite (main_run _ _ _ _ _ _ _ _ Hid).
    destruct (csv_to_sql fs csv_file user_id) as [out [e|[sql count]]];
      [done|].
    cbn [disk_after]. by apply lookup_insert_ne.
  - unfold main. by rewrite Hid.
Qed.

(** ** The order of the columns *)

Lemma NoDup_last_occurrence (l : list string) (j : nat) (key : string) :
  NoDup l → l !! j = Some key → key ∉ drop (S j) l.
Proof.
  intros Hnd Hj [i Hi]%list_elem_of_lookup_1. rewrite lookup_drop in Hi.
  pose proof (NoDup_lookup l j (S j + i) key Hnd Hj Hi). lia.
Qed.

(** A full record under a header without repeated names: the entries of the
    row are the pairs of column name and cell. *)
Lemma DictReader_row_lookup_zip (fieldnames row : list string) (key : string)
    (v : pyval) :
  NoDup fieldnames →
  length row = length fieldnames →
  DictReader_row fieldnames row !! key = Some v ↔
  ∃ cell, v = PyStr cell ∧ (key, cell) ∈ zip fieldnames row.
Proof.
  intros Hnd Hlen. split.
  - intros Hv. destruct (decide (key ∈ fieldnames)) as [Hin|Hnot].
    + apply list_elem_of_lookup_1 in Hin as [j Hj].
      destruct (lookup_lt_is_Some_2 row j) as [cell Hcell].
      { rewrite Hlen. by eapply lookup_lt_Some. }
      rewrite (DictReader_row_cell fieldnames row j key Hj) in Hv
        by (by apply NoDup_last_occurrence).
      rewrite Hcell in Hv. injection Hv as <-. exists cell. split; [done|].
      apply (list_elem_of_lookup_2 _ j). rewrite lookup_zip_with, Hj. cbn.
      by rewrite Hcell.
    + by rewrite DictReader_row_lookup_None in Hv.
  - intros (cell & -> & [j Hj]%list_elem_of_lookup_1).
    apply lookup_zip_with_Some in Hj as (k & c & [= -> ->] & Hk & Hc).
    rewrite (DictReader_row_cell fieldnames row j k Hk)
      by (by apply NoDup_last_occurrence).
    by rewrite Hc.
Qed.

Lemma DictReader_row_Permutation (fieldnames1 fieldnames2 row1 row2 : list string) :
  NoDup fieldnames1 →
  length row1 = length fieldnames1 →
  length row2 = length fieldnames2 →
  zip fieldnames1 row1 ≡ₚ zip fieldnames2 row2 →
  DictReader_row fieldnames1 row1 = DictReader_row fieldnames2 row2.
Proof.
  intros Hnd1 Hlen1 Hlen2 Hperm.
  assert (Hnd2 : NoDup fieldnames2).
  { rewrite <- (fst_zip fieldnames2 row2) by lia. rewrite <- Hperm.
    by rewrite fst_zip by lia. }
  apply map_eq. intros key. apply option_eq. intros v.
  rewrite !DictReader_row_lookup_zip by done.
  by setoid_rewrite Hperm.
Qed.

Lemma filter_nonblank_full (n : nat) (body : list (list string)) :
  0 < n → Forall (λ rec, length rec = n) body → filter nonblank body = body.
Proof.
  intros Hn. induction 1 as [|rec body Hrec _ IH]; [done|].
  rewrite filter_cons_True, IH; [done|]. destruct rec; cbn in *; [lia|done].
Qed.

(** X19. The order of the columns does not matter.  Two accepted files, the
    first with no repeated column name, whose records are full and pair the
    same cells with the same column names, record by record, give the same
    text, count and warnings. *)
Theorem column_order_irrelevant
    (fs1 fs2 : gmap string (list (list string))) (file1 file2 : string)
    (user_id : Z) (fieldnames1 fieldnames2 : list string)
    (body1 body2 : list (list string)) :
  fs1 !! file1 = Some (fieldnames1 :: body1) →
  fs2 !! file2 = Some (fieldnames2 :: body2) →
  required_fields ⊆ fieldnames1 →
  required_fields ⊆ fieldnames2 →
  NoDup fieldnames1 →
  Forall2 (λ rec1 rec2,
             length rec1 = length fieldnames1 ∧
             length rec2 = length fieldnames2 ∧
             zip fieldnames1 rec1 ≡ₚ zip fieldnames2 rec2) body1 body2 →
  csv_to_sql fs1 file1 user_id = csv_to_sql fs2 file2 user_id.
Proof.
  intros Hfile1 Hfile2 Hreq1 Hreq2 Hnd Hbody.
  assert (Hne : ∀ fieldnames, required_fields ⊆ fieldnames →
                              0 < length fieldnames).
  { intros [|? ?] Hreq; [|cbn; lia].
    assert ("name" ∈ @nil string) as Hin by (apply Hreq; left).
    by apply elem_of_nil in Hin. }
  assert (Hrows : DictReader_rows (fieldnames1 :: body1)
                  = DictReader_rows (fieldnames2 :: body2)).
  { cbn.
    rewrite (filter_nonblank_full (length fieldnames1) body1),
      (filter_nonblank_full (length fieldnames2) body2).
    - clear Hfile1 Hfile2.
      induction Hbody as [|rec1 rec2 body1 body2 (Hl1 & Hl2 & Hperm) _ IH];
        [done|].
      cbn. f_equal; [|done]. by apply DictReader_row_Permutation.
    - by apply Hne.
    - eapply Forall2_Forall_r; [exact Hbody|].
      apply Forall_forall. by intros rec1 _ rec2 (_ & ? & _).
    - by apply Hne.
    - eapply Forall2_Forall_l; [exact Hbody|].
      apply Forall_forall. by intros rec2 _ rec1 (? & _).
  }
  apply required_check in Hreq1, Hreq2.
  unfold csv_to_sql. rewrite Hfile1, Hfile2. cbn [fieldnames_of head].
  by rewrite Hreq1, Hreq2, Hrows.
Qed.

(** ** The further properties at sample inputs *)

Lemma csv_to_sql_fails_with_exit_1_witness :
  ∃ (out : list string) (e : exc),
    csv_to_sql sample_fs "missing.csv" 3 = (out, inl e) ∧ e = SystemExit 1.
Proof.
  eexists _, _. split; [vm_compute; reflexivity|].
  apply (csv_to_sql_fails_with_exit_1 sample_fs "missing.csv" 3
           ["❌ 错误：文件 missing.csv 不存在"]).
  by_evaluation.
Defined.

Lemma csv_to_sql_empty_file_witness :
  ∃ detail,
    csv_to_sql {[ "empty.csv" := [] ]} "empty.csv" 3 =
      (["❌ 错误：处理 CSV 文件时出错"; "详细信息：" +:+ detail],
       inl (SystemExit 1)).
Proof.
  apply (csv_to_sql_empty_file {[ "empty.csv" := [] ]} "empty.csv" 3).
  by_evaluation.
Defined.

Lemma csv_to_sql_header_only_witness :
  csv_to_sql {[ "head.csv" := [scenario_fieldnames; []; []] ]} "head.csv" 3
    = ([], inr ("", 0)).
Proof.
  apply (csv_to_sql_header_only {[ "head.csv" := [scenario_fieldnames; []; []] ]}
           "head.csv" 3 scenario_fieldnames [[]; []]).
  - by_evaluation.
  - by_evaluation.
  - repeat constructor.
Defined.

Lemma csv_to_sql_prints_warnings_in_order_witness :
  ∃ res,
    csv_to_sql sample_fs "clients.csv" 3 =
      ([stage_warning 2 (PyStr "vip");
        temp_level_warning 2 (PyStr "lukewarm");
        stage_warning 3 (PyStr "");
        temp_level_warning 3 (PyStr "")], inr res).
Proof.
  apply (csv_to_sql_prints_warnings_in_order sample_fs "clients.csv" 3
           sample_fieldnames sample_body); by_evaluation.
Defined.

Lemma csv_to_sql_silent_iff_rows_valid_witness :
  (csv_to_sql scenario_fs "clients.csv" 3).1 = [] ↔
  Forall (λ row, row_valid row = true)
    (DictReader_rows (scenario_fieldnames :: scenario_body)).
Proof.
  apply (csv_to_sql_silent_iff_rows_valid scenario_fs "clients.csv" 3
           scenario_fieldnames scenario_body); by_evaluation.
Defined.

Lemma valid_enum_values_kept_witness :
  ∃ (out stmts : list string) (l : locals),
    csv_to_sql sample_fs "clients.csv" 3 =
      (out, inr (join (nl +:+ nl) stmts, length stmts)) ∧
    stmts !! 0 = Some (insert_statement (sql_values 3 l)) ∧
    column_value (sql_values 3 l) "stage" = Some "'new_lead'" ∧
    column_value (sql_values 3 l) "temperature_level" = Some "'hot'".
Proof.
  destruct (valid_enum_values_kept sample_fs "clients.csv" 3
              sample_fieldnames sample_body 0
              (DictReader_row sample_fieldnames
                 ["O'Brien"; "referral"; "new_lead"; "80"; "hot"]))
    as (out & stmts & l & Hrun & _ & Hstmt & Hstage & Hlevel);
    [by_evaluation..|].
  exists out, stmts, l. split; [exact Hrun|]. split; [exact Hstmt|]. split.
  - apply (Hstage "new_lead"); by_evaluation.
  - apply (Hlevel "hot"); by_evaluation.
Defined.

Lemma unrecognized_columns_ignored_witness :
  csv_to_sql scenario_fs "clients.csv" 3 =
  csv_to_sql
    {[ "notes.csv" :=
         [["name"; "notes"; "source"; "stage"];
          ["O'Brien"; "met at the fair"; "referral"; "new_lead"]] ]}
    "notes.csv" 3.
Proof.
  apply (unrecognized_columns_ignored
           scenario_fs
           {[ "notes.csv" :=
                [["name"; "notes"; "source"; "stage"];
                 ["O'Brien"; "met at the fair"; "referral"; "new_lead"]] ]}
           "clients.csv" "notes.csv" 3
           scenario_fieldnames ["name"; "notes"; "source"; "stage"]
           scenario_body
           [["O'Brien"; "met at the fair"; "referral"; "new_lead"]]);
    [by_evaluation..|].
  repeat constructor. intros key Hkey.
  unfold recognized_fields in Hkey.
  rewrite !elem_of_cons, elem_of_nil in Hkey.
  decompose [or] Hkey; subst; by_evaluation || done.
Defined.

Lemma cells_reach_statement_witness :
  ∃ (out stmts : list string) (l : locals),
    csv_to_sql sample_fs "clients.csv" 3 =
      (out, inr (join (nl +:+ nl) stmts, length stmts)) ∧
    stmts !! 0 = Some (insert_statement (sql_values 3 l)) ∧
    column_value (sql_values 3 l) "name" = Some "'O''Brien'" ∧
    column_value (sql_values 3 l) "source" = Some "'referral'" ∧
    column_value (sql_values 3 l) "temperature_score" = Some "80".
Proof.
  destruct (cells_reach_statement sample_fs "clients.csv" 3
              sample_fieldnames sample_body 0
              ["O'Brien"; "referral"; "new_lead"; "80"; "hot"])
    as (out & stmts & l & Hrun & _ & Hstmt & Hname & _ & _ & _ & Hsource & _
        & _ & _ & _ & _ & Hscore); [by_evaluation..|].
  exists out, stmts, l. split; [exact Hrun|]. split; [exact Hstmt|].
  split; [|split].
  - apply (Hname "O'Brien"). exists 0. repeat split; by_evaluation.
  - apply (Hsource "referral"). exists 1. repeat split; by_evaluation.
  - apply (Hscore "80"). exists 3. repeat split; by_evaluation.
Defined.

Lemma surplus_cells_ignored_witness :
  csv_to_sql
    {[ "long.csv" :=
         [scenario_fieldnames;
          ["O'Brien"; "referral"; "new_lead"; "stray"; "cells"]] ]}
    "long.csv" 3 =
  csv_to_sql scenario_fs "clients.csv" 3.
Proof.
  apply (surplus_cells_ignored
           {[ "long.csv" :=
                [scenario_fieldnames;
                 ["O'Brien"; "referral"; "new_lead"; "stray"; "cells"]] ]}
           scenario_fs "long.csv" "clients.csv" 3 scenario_fieldnames
           [["O'Brien"; "referral"; "new_lead"; "stray"; "cells"]]);
    by_evaluation.
Defined.

Lemma short_row_numeric_position_None_witness :
  ∃ (out stmts : list string) (l : locals),
    csv_to_sql
      {[ "short.csv" :=
           [["name"; "source"; "stage"; "temperature_score"];
            ["Ann"; "web"; "new_lead"]] ]}
      "short.csv" 3 =
      (out, inr (join (nl +:+ nl) stmts, length stmts)) ∧
    stmts !! 0 = Some (format_insert 3 l) ∧
    py_format (temp_score l) = "None" ∧
    parse_insert (format_insert 3 l) = None.
Proof.
  apply (short_row_numeric_position_None
           {[ "short.csv" :=
                [["name"; "source"; "stage"; "temperature_score"];
                 ["Ann"; "web"; "new_lead"]] ]}
           "short.csv" 3 ["name"; "source"; "stage"; "temperature_score"]
           [["Ann"; "web"; "new_lead"]] 0 3 ["Ann"; "web"; "new_lead"]);
    by_evaluation || (cbn; lia).
Defined.

Lemma empty_score_cell_invalid_sql_witness :
  ∃ (out stmts : list string) (l : locals),
    csv_to_sql sample_fs "clients.csv" 3 =
      (out, inr (join (nl +:+ nl) stmts, length stmts)) ∧
    stmts !! 1 = Some (format_insert 3 l) ∧
    py_format (temp_score l) = "" ∧
    parse_insert (format_insert 3 l) = None.
Proof.
  apply (empty_score_cell_invalid_sql sample_fs "clients.csv" 3
           sample_fieldnames sample_body 1
           ["Li"; "web"; "vip"; ""; "lukewarm"]); [by_evaluation..|].
  exists 3. repeat split; by_evaluation.
Defined.

Lemma main_writes_import_sql_witness :
  ∃ (ls : list locals),
    length ls = 1 ∧
    disk_after
      (main (λ _, None) "2026-01-01 00:00:00" scenario_fs
         {[ "import.sql" := "old text" ]} ["csv_to_sql.py"; "clients.csv"])
      !! "import.sql" =
    Some ("-- CRM 客户数据导入脚本" +:+ nl +:+
          "-- 来源文件: clients.csv" +:+ nl +:+
          "-- 用户 ID: 2" +:+ nl +:+
          "-- 记录数量: 1" +:+ nl +:+
          "-- 生成时间: 2026-01-01 00:00:00" +:+ nl +:+ nl +:+
          join (nl +:+ nl) (format_insert 2 <$> ls)).
Proof.
  destruct (main_writes_import_sql (λ _, None) "2026-01-01 00:00:00"
              scenario_fs {[ "import.sql" := "old text" ]}
              "csv_to_sql.py" "clients.csv" [] 2
              scenario_fieldnames scenario_body)
    as (ls & Hlen & Hrun); [by_evaluation..|].
  exists ls. split; [exact Hlen|].
  rewrite Hrun. cbn [disk_after]. rewrite lookup_insert_eq, Hlen.
  reflexivity.
Defined.

Lemma main_touches_only_import_sql_witness :
  disk_after
    (main (λ _, None) "2026-01-01 00:00:00" scenario_fs
       {[ "notes.txt" := "keep me" ]} ["csv_to_sql.py"; "clients.csv"])
    !! "notes.txt" = Some "keep me".
Proof.
  rewrite (main_touches_only_import_sql (λ _, None) "2026-01-01 00:00:00"
             scenario_fs {[ "notes.txt" := "keep me" ]}
             ["csv_to_sql.py"; "clients.csv"] "notes.txt").
  - by_evaluation.
  - discriminate.
Defined.

Lemma column_order_irrelevant_witness :
  csv_to_sql scenario_fs "clients.csv" 3 =
  csv_to_sql
    {[ "swapped.csv" :=
         [["stage"; "name"; "source"]; ["new_lead"; "O'Brien"; "referral"]] ]}
    "swapped.csv" 3.
Proof.
  apply (column_order_irrelevant
           scenario_fs
           {[ "swapped.csv" :=
                [["stage"; "name"; "source"];
                 ["new_lead"; "O'Brien"; "referral"]] ]}
           "clients.csv" "swapped.csv" 3
           scenario_fieldnames ["stage"; "name"; "source"]
           scenario_body [["new_lead"; "O'Brien"; "referral"]]);
    [by_evaluation..| |].
  - apply (bool_decide_unpack _). vm_compute. exact I.
  - repeat constructor. cbn.
    apply (bool_decide_unpack _). vm_compute. exact I.
Defined.
